(** * YS E-learning system: lockout governor, quiz timer and scoring

    A shallow embedding of the parts of [database_manager.py] and
    [main_azure_sso.py] that decide authentication, lockout, quiz timing,
    scoring and result storage, together with the properties proved about
    them.

    Conventions of the embedding.
    - Instants ([datetime] values) are integers counting microseconds, the
      resolution of [datetime]; [timedelta(minutes=m)] is [m * 60000000].
    - Python floats are modelled by exact rationals ([Q]): a quotient or a
      product is taken exactly, where Python rounds it to a double.
    - The class has no method [hash_password]: what was its body stands,
      without a [def] line, at the end of [init_database], so
      [self.hash_password(...)] raises [AttributeError] wherever it is
      evaluated.  (There the stranded [return] refers to a name
      [password] that [init_database] does not have, so the constructor
      ends in [NameError] once the tables are created and committed.)
      The methods are embedded as they run on a [DatabaseManager] object
      over a database file whose tables exist.
    - SQLite is modelled by the committed contents of the database file
      plus at most one connection holding the write lock together with its
      uncommitted view.  Every method of [DatabaseManager] opens its own
      connection with [get_connection], so one method calling another
      means two connections on the same file.
    - Columns filled by SQLite's own [CURRENT_TIMESTAMP] default are left
      out of the rows; no modelled function reads them.
    - [print] and the Streamlit widgets are not modelled. *)

From Stdlib Require Import ZArith QArith Qround Lia String Ascii List DecimalString.
From stdpp Require Import base gmap strings list.
Import ListNotations.

Open Scope Z_scope.
Open Scope string_scope.

(** ** Rows of the tables created by [init_database] *)

Module Users.
(** [users]: [user_id INTEGER PRIMARY KEY AUTOINCREMENT],
    [username TEXT UNIQUE NOT NULL], [status TEXT DEFAULT 'active'],
    [failed_login_count INTEGER DEFAULT 0], [locked_until TIMESTAMP]. *)
Record row := mk {
  user_id : Z;
  username : string;
  password_hash : string;
  email : string;
  full_name : string;
  role : string;
  status : string;
  failed_login_count : Z;
  locked_until : option Z;
  last_login : option Z
}.
End Users.

Module LoginLogs.
(** [login_logs]: the ledger of authentication attempts. *)
Record row := mk {
  log_id : Z;
  user_id : option Z;
  username : string;
  status : string;
  ip_address : string;
  user_agent : string;
  error_message : option string
}.
End LoginLogs.

Module QuizResults.
(** [quiz_results]: one row per answered question and submission. *)
Record row := mk {
  result_id : Z;
  user_id : Z;
  course_id : Z;
  question_id : Z;
  selected_answers : list string;
  is_correct : bool;
  score_earned : Z
}.
End QuizResults.

Module CourseScores.
(** [course_scores]: [UNIQUE(user_id, course_id)]. *)
Record row := mk {
  score_id : Z;
  user_id : Z;
  course_id : Z;
  total_score : Z;
  max_score : Z;
  score_percent : Q;
  passed : bool;
  completed_at : Z
}.
End CourseScores.

(** The database file.  The [seq_*] fields are the [sqlite_sequence]
    entries kept for the [AUTOINCREMENT] keys. *)
Record Database := mkDatabase {
  users : list Users.row;
  seq_users : Z;
  login_logs : list LoginLogs.row;
  seq_login_logs : Z;
  quiz_results : list QuizResults.row;
  seq_quiz_results : Z;
  course_scores : list CourseScores.row;
  seq_course_scores : Z
}.

(** A database file on which [init_database] has just created the tables. *)
Definition empty_database : Database :=
  mkDatabase [] 0 [] 0 [] 0 [] 0.

Definition set_users (us : list Users.row) (s : Z) (d : Database) : Database :=
  mkDatabase us s (login_logs d) (seq_login_logs d)
             (quiz_results d) (seq_quiz_results d)
             (course_scores d) (seq_course_scores d).

Definition set_login_logs (ls : list LoginLogs.row) (s : Z) (d : Database) : Database :=
  mkDatabase (users d) (seq_users d) ls s
             (quiz_results d) (seq_quiz_results d)
             (course_scores d) (seq_course_scores d).

Definition set_quiz_results (qs : list QuizResults.row) (s : Z) (d : Database) : Database :=
  mkDatabase (users d) (seq_users d) (login_logs d) (seq_login_logs d)
             qs s (course_scores d) (seq_course_scores d).

Definition set_course_scores (cs : list CourseScores.row) (s : Z) (d : Database) : Database :=
  mkDatabase (users d) (seq_users d) (login_logs d) (seq_login_logs d)
             (quiz_results d) (seq_quiz_results d) cs s.

(** ** Configuration and questions *)

(** [config.yaml] as the code reads it: the [users] and [quiz] sections
    may be absent, and so may each key inside them. *)
Record UsersSection := mkUsersSection {
  max_login_attempts : option Z;
  lockout_minutes : option Z
}.

Record QuizSection := mkQuizSection {
  points_per_question : option Z
}.

Record Config := mkConfig {
  cfg_users : option UsersSection;
  cfg_quiz : option QuizSection
}.

(** An entry of [questions.json]. *)
Record Question := mkQuestion {
  q_id : Z;
  q_question : string;
  q_choices : list (string * string);
  q_correct_answers : list string;
  q_multiple_choice : bool
}.

(** ** The dictionary [authenticate_user] returns *)

(** [{"status": "success", "user_id": user_id}] or
    [{"status": "failed", "message": message}]. *)
Inductive AuthResult : Type :=
| AuthSuccess (user_id : Z)
| AuthFailed (message : string).

(** ** The Streamlit session ([st.session_state]) *)

(** [user_id] holds what the program assigns to it: [None]
    ([init_session_state], the logout button) or the dictionary
    [authenticate_user] returned ([show_login_page]); no assignment
    stores an integer. *)
Record SessionState := mkSessionState {
  ss_user_id : option AuthResult;
  ss_current_course_id : Z;
  ss_passing_score : Z;
  ss_quiz_time_limit : Z;
  ss_quiz_start_time : Z;
  ss_quiz_answers : gmap Z (list string);
  ss_current_page : string;
  ss_result_score : Z;
  ss_result_max_score : Z;
  ss_result_percent : Q;
  ss_result_passed : bool;
  ss_result_correct : Z;
  ss_result_total : Z
}.

(** ** The world the program runs in *)

(** [disk] is the committed content of the database file.  [writer] is the
    connection that holds SQLite's write lock, if any, with the content
    as that connection sees it (its uncommitted changes included).
    [clock] lists the readings [datetime.now()] returns, [reads] counts
    the readings taken so far.  [config_yaml] and [questions_json] are
    the contents of the two files of these names. *)
Record World := mkWorld {
  disk : Database;
  writer : option (nat * Database);
  next_conn : nat;
  clock : nat -> Z;
  reads : nat;
  config_yaml : Config;
  questions_json : list Question;
  session_state : SessionState
}.

Definition with_disk (d : Database) (w : World) : World :=
  mkWorld d (writer w) (next_conn w) (clock w) (reads w)
          (config_yaml w) (questions_json w) (session_state w).

Definition with_writer (o : option (nat * Database)) (w : World) : World :=
  mkWorld (disk w) o (next_conn w) (clock w) (reads w)
          (config_yaml w) (questions_json w) (session_state w).

Definition with_next_conn (n : nat) (w : World) : World :=
  mkWorld (disk w) (writer w) n (clock w) (reads w)
          (config_yaml w) (questions_json w) (session_state w).

Definition with_reads (n : nat) (w : World) : World :=
  mkWorld (disk w) (writer w) (next_conn w) (clock w) n
          (config_yaml w) (questions_json w) (session_state w).

Definition with_session_state (s : SessionState) (w : World) : World :=
  mkWorld (disk w) (writer w) (next_conn w) (clock w) (reads w)
          (config_yaml w) (questions_json w) s.

(** ** Exceptions and the monad of the program *)

Inductive exn : Set :=
| IntegrityError      (* sqlite3.IntegrityError: a constraint failed *)
| OperationalError    (* sqlite3.OperationalError: database is locked *)
| ProgrammingError    (* sqlite3.ProgrammingError: a parameter cannot be bound *)
| AttributeError      (* the object has no attribute of that name *)
| KeyError
| ZeroDivisionError.

Inductive result (A : Type) : Type :=
| Ok (a : A)
| Raise (e : exn).

Arguments Ok {A} a.
Arguments Raise {A} e.

Definition M (A : Type) : Type := World -> result A * World.

Definition ret {A} (a : A) : M A := fun w => (Ok a, w).

Definition raise {A} (e : exn) : M A := fun w => (Raise e, w).

Definition bind {A B} (m : M A) (k : A -> M B) : M B := fun w =>
  match m w with
  | (Ok a, w') => k a w'
  | (Raise e, w') => (Raise e, w')
  end.

Declare Scope prog_scope.
Delimit Scope prog_scope with prog.
Bind Scope prog_scope with M.

Notation "'let*' x ':=' m 'in' k" := (bind m (fun x => k))
  (at level 10, x name, m at level 100, k at level 200) : prog_scope.
Notation "'let*' ' pat ':=' m 'in' k" :=
  (bind m (fun x => match x with pat => k end))
  (at level 10, pat pattern, m at level 100, k at level 200) : prog_scope.
Notation "m ';;;' k" := (bind m (fun _ => k))
  (at level 100, k at level 200, right associativity) : prog_scope.

Open Scope prog_scope.

(** [try: body except Exception: handler]. *)
Definition try_except {A} (body : M A) (handler : exn -> M A) : M A := fun w =>
  match body w with
  | (Ok a, w') => (Ok a, w')
  | (Raise e, w') => handler e w'
  end.

(** [try: body except sqlite3.IntegrityError: handler]: any other
    exception propagates. *)
Definition try_except_integrity {A} (body : M A) (handler : M A) : M A :=
  try_except body
    (fun e => match e with IntegrityError => handler | _ => raise e end).

(** ** Clock, configuration and session *)

(** [datetime.now()]. *)
Definition datetime_now : M Z := fun w =>
  (Ok (clock w (reads w)), with_reads (S (reads w)) w).

(** [timedelta(minutes=m)], in microseconds. *)
Definition timedelta_minutes (m : Z) : Z := m * 60000000.

(** [_load_config]: the content of [config.yaml], [{}] when the file is
    missing or unreadable (a [Config] with both sections absent). *)
Definition _load_config : M Config := fun w => (Ok (config_yaml w), w).

Definition get_session : M SessionState := fun w => (Ok (session_state w), w).

Definition put_session (s : SessionState) : M unit := fun w =>
  (Ok tt, with_session_state s w).

(** ** SQLite connections *)

(** [get_connection]: [sqlite3.connect(self.db_path)], a new connection
    on the same file at every call. *)
Definition get_connection : M nat := fun w =>
  (Ok (next_conn w), with_next_conn (S (next_conn w)) w).

(** What connection [c] reads: its own uncommitted changes if it holds
    the write lock, the committed content otherwise. *)
Definition view (c : nat) (w : World) : Database :=
  match writer w with
  | Some (c', d) => if Nat.eqb c c' then d else disk w
  | None => disk w
  end.

(** [cursor.execute] of a SELECT. *)
Definition query {A} (c : nat) (f : Database -> A) : M A := fun w =>
  (Ok (f (view c w)), w).

(** [cursor.execute] of an INSERT or UPDATE.  The [sqlite3] module opens
    a transaction before the statement, and SQLite gives the write lock
    to one connection at a time: while another connection has
    uncommitted changes the statement ends, after the busy timeout, in
    [OperationalError] (database is locked).  A statement that fails on
    a constraint is undone, its transaction stays open. *)
Definition execute_write (c : nat) (stmt : Database -> result Database) : M unit :=
  fun w =>
    match writer w with
    | Some (c', d) =>
        if Nat.eqb c c' then
          match stmt d with
          | Ok d' => (Ok tt, with_writer (Some (c, d')) w)
          | Raise e => (Raise e, w)
          end
        else (Raise OperationalError, w)
    | None =>
        match stmt (disk w) with
        | Ok d' => (Ok tt, with_writer (Some (c, d')) w)
        | Raise e => (Raise e, with_writer (Some (c, disk w)) w)
        end
    end.

(** [conn.commit()]. *)
Definition commit (c : nat) : M unit := fun w =>
  match writer w with
  | Some (c', d) =>
      if Nat.eqb c c' then (Ok tt, with_writer None (with_disk d w))
      else (Ok tt, w)
  | None => (Ok tt, w)
  end.

(** [conn.close()]: uncommitted changes are rolled back. *)
Definition close (c : nat) : M unit := fun w =>
  match writer w with
  | Some (c', d) =>
      if Nat.eqb c c' then (Ok tt, with_writer None w) else (Ok tt, w)
  | None => (Ok tt, w)
  end.

(** A connection held in a local variable: when an exception unwinds the
    frame the connection object is released, which closes it. *)
Definition dropped_on_raise {A} (c : nat) (body : M A) : M A := fun w =>
  match body w with
  | (Ok a, w') => (Ok a, w')
  | (Raise e, w') => (Raise e, snd (close c w'))
  end.

(** The key [AUTOINCREMENT] gives a new row: one more than the largest
    key ever used in the table. *)
Definition next_rowid (ids : list Z) (seq : Z) : Z :=
  Z.max seq (fold_right Z.max 0 ids) + 1.

(** What a caller passes as the [user_id] of [save_quiz_result] and
    [save_course_score]: the annotation says [int], [submit_quiz] passes
    what the session holds, [None] or a dictionary. *)
Inductive UserIdArg : Type :=
| IdInt (n : Z)
| IdNone
| IdDict (d : AuthResult).

Coercion IdInt : Z >-> UserIdArg.

(** The binding of that parameter by [cursor.execute], which comes before
    the statement runs and needs no lock: an integer is bound as it is,
    [None] as NULL, and a dictionary is no supported type
    ([ProgrammingError]). *)
Definition bind_user_id (user_id : UserIdArg) : M (option Z) :=
  match user_id with
  | IdInt n => ret (Some n)
  | IdNone => ret None
  | IdDict _ => raise ProgrammingError
  end.

(** ** Values and messages of [database_manager.py] *)

(** [f"{n}"] for an integer. *)
Definition fmt_int (n : Z) : string := NilZero.string_of_int (Z.to_int n).

Definition msg_not_found : string :=
  "ユーザー名またはパスワードが正しくありません".

Definition msg_status (status : string) : string :=
  "このアカウントは " ++ status ++ " です。管理者に連絡してください。".

Definition msg_locked (remaining_minutes : Z) : string :=
  "アカウントがロックされています。" ++ fmt_int remaining_minutes
  ++ "分後に再度お試しください。".

Definition msg_locked_now (max_attempts lockout_minutes : Z) : string :=
  "パスワードが正しくありません。" ++ fmt_int max_attempts
  ++ "回失敗したため、アカウントが" ++ fmt_int lockout_minutes
  ++ "分間ロックされました。".

Definition msg_remaining (remaining_attempts : Z) : string :=
  "パスワードが正しくありません。残り " ++ fmt_int remaining_attempts
  ++ " 回試行できます。".

(** The [error_message] column written to [login_logs]. *)
Definition log_not_found : string := "ユーザーが見つかりません".

Definition log_status (status : string) : string :=
  "ユーザーステータス: " ++ status.

Definition log_locked (remaining_minutes : Z) : string :=
  "アカウントロック中（残り" ++ fmt_int remaining_minutes ++ "分）".

Definition log_locked_now (lockout_minutes : Z) : string :=
  "パスワード不一致 - ロック中（" ++ fmt_int lockout_minutes ++ "分）".

Definition log_remaining (remaining_attempts : Z) : string :=
  "パスワード不一致（残り" ++ fmt_int remaining_attempts ++ "回）".

(** [config.get('users', {}).get(key, default)]. *)
Definition users_get (config : Config) (key : UsersSection -> option Z)
    (default : Z) : Z :=
  match cfg_users config with
  | Some section => from_option id default (key section)
  | None => default
  end.

(** ** SQL statements *)

(** [SELECT ... FROM users WHERE username = ?] followed by [fetchone]. *)
Definition select_user (username : string) (d : Database) : option Users.row :=
  List.find (fun r => String.eqb (Users.username r) username) (users d).

(** [SET failed_login_count = n, locked_until = lu] on one row. *)
Definition set_lock_state (n : Z) (lu : option Z) (r : Users.row) : Users.row :=
  Users.mk (Users.user_id r) (Users.username r) (Users.password_hash r)
           (Users.email r) (Users.full_name r) (Users.role r)
           (Users.status r) n lu (Users.last_login r).

Definition set_last_login (t : Z) (r : Users.row) : Users.row :=
  Users.mk (Users.user_id r) (Users.username r) (Users.password_hash r)
           (Users.email r) (Users.full_name r) (Users.role r)
           (Users.status r) (Users.failed_login_count r)
           (Users.locked_until r) (Some t).

(** [UPDATE users SET ... WHERE user_id = ?]: the table afterwards, and
    the statement, which cannot fail. *)
Definition users_where_id (uid : Z) (f : Users.row -> Users.row)
    (d : Database) : Database :=
  set_users
    (List.map (fun r => if Z.eqb (Users.user_id r) uid then f r else r) (users d))
    (seq_users d) d.

Definition update_users_where_id (uid : Z) (f : Users.row -> Users.row)
    (d : Database) : result Database :=
  Ok (users_where_id uid f d).

(** [UPDATE users SET failed_login_count = 0, locked_until = NULL]. *)
Definition sql_reset_lock (uid : Z) : Database -> result Database :=
  update_users_where_id uid (set_lock_state 0 None).

(** [UPDATE users SET failed_login_count = ?, locked_until = ?]. *)
Definition sql_lock (uid new_failed_count locked_until : Z)
    : Database -> result Database :=
  update_users_where_id uid (set_lock_state new_failed_count (Some locked_until)).

(** [UPDATE users SET failed_login_count = ?]. *)
Definition sql_set_failed_count (uid new_failed_count : Z)
    : Database -> result Database :=
  update_users_where_id uid
    (fun r => set_lock_state new_failed_count (Users.locked_until r) r).

(** [UPDATE users SET last_login = ?, failed_login_count = 0,
    locked_until = NULL]. *)
Definition sql_login_success (uid now : Z) : Database -> result Database :=
  update_users_where_id uid (fun r => set_last_login now (set_lock_state 0 None r)).

(** [INSERT INTO users (username, password_hash, email, full_name, role)]:
    [username] is [UNIQUE], the other columns take their defaults. *)
Definition sql_insert_user (username password_hash email full_name role : string)
    (d : Database) : result Database :=
  if existsb (fun r => String.eqb (Users.username r) username) (users d)
  then Raise IntegrityError
  else
    let uid := next_rowid (List.map Users.user_id (users d)) (seq_users d) in
    Ok (set_users
          (users d ++ [Users.mk uid username password_hash email full_name role
                                "active" 0 None None])
          uid d).

(** [INSERT INTO login_logs (user_id, username, status, ip_address,
    user_agent, error_message)]. *)
Definition with_login_log (user_id : option Z)
    (username status ip_address user_agent : string)
    (error_message : option string) (d : Database) : Database :=
  let lid := next_rowid (List.map LoginLogs.log_id (login_logs d)) (seq_login_logs d) in
  set_login_logs
    (login_logs d ++ [LoginLogs.mk lid user_id username status ip_address
                                   user_agent error_message])
    lid d.

Definition sql_insert_login_log (user_id : option Z)
    (username status ip_address user_agent : string)
    (error_message : option string) (d : Database) : result Database :=
  Ok (with_login_log user_id username status ip_address user_agent
                     error_message d).

(** [INSERT INTO quiz_results (user_id, course_id, question_id,
    selected_answers, is_correct, score_earned)]. *)
Definition with_quiz_result (user_id course_id question_id : Z)
    (selected_answers : list string) (is_correct : bool) (score_earned : Z)
    (d : Database) : Database :=
  let rid := next_rowid (List.map QuizResults.result_id (quiz_results d))
                        (seq_quiz_results d) in
  set_quiz_results
    (quiz_results d ++ [QuizResults.mk rid user_id course_id question_id
                                       selected_answers is_correct score_earned])
    rid d.

(** The statement with its parameters bound: [user_id] is [NOT NULL]. *)
Definition sql_insert_quiz_result (user_id : option Z) (course_id question_id : Z)
    (selected_answers : list string) (is_correct : bool) (score_earned : Z)
    (d : Database) : result Database :=
  match user_id with
  | Some uid =>
      Ok (with_quiz_result uid course_id question_id selected_answers
                           is_correct score_earned d)
  | None => Raise IntegrityError
  end.

(** Two rows of [course_scores] conflict when they share the primary key
    or the [UNIQUE(user_id, course_id)] pair. *)
Definition score_conflict (a b : CourseScores.row) : bool :=
  Z.eqb (CourseScores.score_id a) (CourseScores.score_id b)
  || (Z.eqb (CourseScores.user_id a) (CourseScores.user_id b)
      && Z.eqb (CourseScores.course_id a) (CourseScores.course_id b)).

(** [INSERT OR REPLACE INTO course_scores (user_id, course_id, total_score,
    max_score, score_percent, passed, completed_at)]: the rows in conflict
    with the new one are deleted, then the new row is inserted. *)
Definition with_course_score (user_id course_id total_score max_score : Z)
    (score_percent : Q) (passed : bool) (completed_at : Z)
    (d : Database) : Database :=
  let sid := next_rowid (List.map CourseScores.score_id (course_scores d))
                        (seq_course_scores d) in
  let new := CourseScores.mk sid user_id course_id total_score max_score
                             score_percent passed completed_at in
  set_course_scores
    (List.filter (fun r => negb (score_conflict r new)) (course_scores d)
     ++ [new])
    sid d.

(** The statement with its parameters bound: [user_id] is [NOT NULL] and
    has no default, so a NULL aborts the statement also under
    [OR REPLACE]. *)
Definition sql_upsert_course_score (user_id : option Z)
    (course_id total_score max_score : Z)
    (score_percent : Q) (passed : bool) (completed_at : Z)
    (d : Database) : result Database :=
  match user_id with
  | Some uid =>
      Ok (with_course_score uid course_id total_score max_score
                            score_percent passed completed_at d)
  | None => Raise IntegrityError
  end.

(** [SELECT ... FROM course_scores WHERE user_id = ? AND course_id = ?]
    followed by [fetchone]. *)
Definition select_course_score (user_id course_id : Z) (d : Database)
    : option CourseScores.row :=
  List.find (fun r => Z.eqb (CourseScores.user_id r) user_id
                      && Z.eqb (CourseScores.course_id r) course_id)
            (course_scores d).

(** ** [DatabaseManager] *)

(** [self.hash_password(password)].  [DatabaseManager] defines no
    [hash_password]: the docstring and the [return] of a method of that
    purpose stand at the end of [init_database], under the comment that
    opens the next group of methods, with no [def] line.  The attribute
    lookup fails, whatever the password. *)
Definition hash_password (password : string) : M string :=
  raise AttributeError.

(** [add_user]: the hash is computed inside the [try], after the
    connection is opened; [except sqlite3.IntegrityError] lets any other
    exception through. *)
Definition add_user (username password email full_name role : string) : M bool :=
  try_except_integrity
    (let* conn := get_connection in
     dropped_on_raise conn
       (let* password_hash := hash_password password in
        execute_write conn
          (sql_insert_user username password_hash email full_name role) ;;;
        commit conn ;;;
        close conn ;;;
        ret true))
    (ret false).

(** [_log_login_attempt]: its own connection, every exception caught. *)
Definition _log_login_attempt (user_id : option Z)
    (username status ip_address user_agent : string)
    (error_message : option string) : M bool :=
  try_except
    (let* conn := get_connection in
     dropped_on_raise conn
       (execute_write conn
          (sql_insert_login_log user_id username status ip_address
                                user_agent error_message) ;;;
        commit conn ;;;
        close conn ;;;
        ret true))
    (fun _ => ret false).

(** [authenticate_user] from check 3 on ([provided_hash = ...] to the
    end): [row] is the row read at the start, [failed_count] the count
    after the lock check.  The first statement is the call of
    [hash_password]; what follows it is embedded as it is written. *)
Definition authenticate_user_check3 (conn : nat) (row : Users.row)
    (failed_count : Z) (username password ip_address user_agent : string)
    : M AuthResult :=
  let user_id := Users.user_id row in
  let* provided_hash := hash_password password in
  if negb (String.eqb (Users.password_hash row) provided_hash) then
    let new_failed_count := failed_count + 1 in
    let* config := _load_config in
    let max_attempts := users_get config max_login_attempts 5 in
    let lockout_minutes := users_get config lockout_minutes 30 in
    if Z.geb new_failed_count max_attempts then
      let* now := datetime_now in
      let locked_until := now + timedelta_minutes lockout_minutes in
      execute_write conn (sql_lock user_id new_failed_count locked_until) ;;;
      _log_login_attempt (Some user_id) username "failed" ip_address user_agent
                         (Some (log_locked_now lockout_minutes)) ;;;
      commit conn ;;;
      close conn ;;;
      ret (AuthFailed (msg_locked_now max_attempts lockout_minutes))
    else
      execute_write conn (sql_set_failed_count user_id new_failed_count) ;;;
      let remaining_attempts := max_attempts - new_failed_count in
      _log_login_attempt (Some user_id) username "failed" ip_address user_agent
                         (Some (log_remaining remaining_attempts)) ;;;
      commit conn ;;;
      close conn ;;;
      ret (AuthFailed (msg_remaining remaining_attempts))
  else
    let* now := datetime_now in
    execute_write conn (sql_login_success user_id now) ;;;
    _log_login_attempt (Some user_id) username "success" ip_address user_agent
                       None ;;;
    commit conn ;;;
    close conn ;;;
    ret (AuthSuccess user_id).

(** [authenticate_user].  [int(seconds / 60)] truncates towards zero. *)
Definition authenticate_user (username password ip_address user_agent : string)
    : M AuthResult :=
  let* conn := get_connection in
  dropped_on_raise conn
    (let* result := query conn (select_user username) in
     match result with
     | None =>
         _log_login_attempt None username "failed" ip_address user_agent
                            (Some log_not_found) ;;;
         close conn ;;;
         ret (AuthFailed msg_not_found)
     | Some row =>
         let user_id := Users.user_id row in
         let status := Users.status row in
         let failed_count := Users.failed_login_count row in
         if negb (String.eqb status "active") then
           _log_login_attempt (Some user_id) username "failed" ip_address
                              user_agent (Some (log_status status)) ;;;
           close conn ;;;
           ret (AuthFailed (msg_status status))
         else
           match Users.locked_until row with
           | Some locked_until_dt =>
               let* now := datetime_now in
               if Z.ltb now locked_until_dt then
                 let* now' := datetime_now in
                 let remaining_minutes :=
                   Z.quot (locked_until_dt - now') 60000000 in
                 _log_login_attempt (Some user_id) username "failed" ip_address
                                    user_agent
                                    (Some (log_locked remaining_minutes)) ;;;
                 close conn ;;;
                 ret (AuthFailed (msg_locked remaining_minutes))
               else
                 execute_write conn (sql_reset_lock user_id) ;;;
                 commit conn ;;;
                 authenticate_user_check3 conn row 0 username password
                                          ip_address user_agent
           | None =>
               authenticate_user_check3 conn row failed_count username password
                                        ip_address user_agent
           end
     end).

(** ** [DatabaseManager]: user administration *)

Definition set_status (status : string) (r : Users.row) : Users.row :=
  Users.mk (Users.user_id r) (Users.username r) (Users.password_hash r)
           (Users.email r) (Users.full_name r) (Users.role r)
           status (Users.failed_login_count r) (Users.locked_until r)
           (Users.last_login r).

(** [UPDATE users SET status = ? WHERE user_id = ?]. *)
Definition sql_set_status (uid : Z) (status : string)
    : Database -> result Database :=
  update_users_where_id uid (set_status status).

(** [update_user_status]: a status outside the three names is refused
    before any connection is opened. *)
Definition update_user_status (user_id : Z) (status : string) : M bool :=
  if negb (existsb (String.eqb status) ["active"; "suspended"; "disabled"])
  then ret false
  else
    try_except
      (let* conn := get_connection in
       dropped_on_raise conn
         (execute_write conn (sql_set_status user_id status) ;;;
          commit conn ;;;
          close conn ;;;
          ret true))
      (fun _ => ret false).

(** [unlock_user]. *)
Definition unlock_user (user_id : Z) : M bool :=
  try_except
    (let* conn := get_connection in
     dropped_on_raise conn
       (execute_write conn (sql_reset_lock user_id) ;;;
        commit conn ;;;
        close conn ;;;
        ret true))
    (fun _ => ret false).

(** The dictionary [get_user_info] returns ([created_at] left out, as in
    the rows). *)
Record UserInfo := mkUserInfo {
  ui_user_id : Z;
  ui_username : string;
  ui_email : string;
  ui_full_name : string;
  ui_role : string;
  ui_status : string;
  ui_last_login : option Z
}.

Definition user_info_of (r : Users.row) : UserInfo :=
  mkUserInfo (Users.user_id r) (Users.username r) (Users.email r)
             (Users.full_name r) (Users.role r) (Users.status r)
             (Users.last_login r).

(** [SELECT ... FROM users WHERE user_id = ?] followed by [fetchone]. *)
Definition select_user_by_id (user_id : Z) (d : Database) : option Users.row :=
  List.find (fun r => Z.eqb (Users.user_id r) user_id) (users d).

(** [get_user_info]. *)
Definition get_user_info (user_id : Z) : M (option UserInfo) :=
  let* conn := get_connection in
  let* result := query conn (select_user_by_id user_id) in
  close conn ;;;
  ret (option_map user_info_of result).

(** ** Results: [save_quiz_result], [save_course_score] *)

(** [a / b] on integers: true division, [ZeroDivisionError] when [b = 0]. *)
Definition py_truediv (a b : Z) : M Q :=
  if Z.eqb b 0 then raise ZeroDivisionError
  else ret (inject_Z a / inject_Z b)%Q.

(** [(total_score / max_score * 100) if max_score > 0 else 0], the
    expression shared by [submit_quiz] and [save_course_score].  The
    quotient and the product are exact here; Python rounds each to a
    double, so its value can differ from this one in the last place
    ([29 / 50 * 100] is [57.99999999999999] there, 58 here). *)
Definition percent_of (total_score max_score : Z) : M Q :=
  if Z.ltb 0 max_score then
    let* ratio := py_truediv total_score max_score in
    ret (ratio * 100)%Q
  else ret 0%Q.

(** [score_percent >= passing_score_percent], on the exact percentage. *)
Definition reaches (score_percent : Q) (passing_score_percent : Z) : bool :=
  Qle_bool (inject_Z passing_score_percent) score_percent.

(** [round(x, 2)]: to the nearest hundredth, a tie going to the even one. *)
Definition py_round2 (x : Q) : Q :=
  let y := (x * 100)%Q in
  let f := Qfloor y in
  let n := match Qcompare (y - inject_Z f) (1 # 2) with
           | Lt => f
           | Gt => f + 1
           | Eq => if Z.even f then f else f + 1
           end in
  (inject_Z n / 100)%Q.

(** The dictionary [save_course_score] returns on success. *)
Record ScoreDict := mkScoreDict {
  sd_total_score : Z;
  sd_max_score : Z;
  sd_score_percent : Q;
  sd_passed : bool
}.

(** [save_quiz_result]. *)
Definition save_quiz_result (user_id : UserIdArg) (course_id question_id : Z)
    (selected_answers : list string) (is_correct : bool) (score_earned : Z)
    : M bool :=
  try_except
    (let* conn := get_connection in
     dropped_on_raise conn
       (let* bound_user_id := bind_user_id user_id in
        execute_write conn
          (sql_insert_quiz_result bound_user_id course_id question_id
                                  selected_answers is_correct score_earned) ;;;
        commit conn ;;;
        close conn ;;;
        ret true))
    (fun _ => ret false).

(** [save_course_score]: [None] stands for the empty dictionary returned
    when the storage fails.  [datetime.now()] is evaluated when the tuple
    of parameters is built, before [execute] binds them. *)
Definition save_course_score (user_id : UserIdArg) (course_id total_score
    max_score passing_score_percent : Z) : M (option ScoreDict) :=
  let* score_percent := percent_of total_score max_score in
  let passed := reaches score_percent passing_score_percent in
  try_except
    (let* conn := get_connection in
     dropped_on_raise conn
       (let* now := datetime_now in
        let* bound_user_id := bind_user_id user_id in
        execute_write conn
          (sql_upsert_course_score bound_user_id course_id total_score max_score
                                   score_percent passed now) ;;;
        commit conn ;;;
        close conn ;;;
        ret (Some (mkScoreDict total_score max_score
                               (py_round2 score_percent) passed))))
    (fun _ => ret None).

(** [get_user_course_score]. *)
Definition get_user_course_score (user_id course_id : Z)
    : M (option CourseScores.row) :=
  let* conn := get_connection in
  let* result := query conn (select_course_score user_id course_id) in
  close conn ;;;
  ret result.

(** ** [main_azure_sso.py]: the quiz *)

(** [config['quiz'].get('points_per_question', 20)]: [KeyError] when the
    file has no [quiz] section. *)
Definition quiz_points (config : Config) : M Z :=
  match cfg_quiz config with
  | Some section => ret (from_option id 20 (points_per_question section))
  | None => raise KeyError
  end.

(** [set(selected) == set(correct_answers)]. *)
Definition is_correct (selected correct_answers : list string) : bool :=
  bool_decide (list_to_set selected =@{gset string} list_to_set correct_answers).

(** [st.session_state.quiz_answers.get(q['id'], [])]. *)
Definition selected_of (st : SessionState) (q : Question) : list string :=
  from_option id [] (ss_quiz_answers st !! q_id q).

(** [st.session_state.user_id] as an argument of a call. *)
Definition session_user_id (st : SessionState) : UserIdArg :=
  match ss_user_id st with
  | Some d => IdDict d
  | None => IdNone
  end.

(** The scoring loop of [submit_quiz]; the accumulator is
    [(total_score, max_score, correct_count)]. *)
Fixpoint score_loop (config : Config) (questions : list Question)
    (acc : Z * Z * Z) : M (Z * Z * Z) :=
  match questions with
  | [] => ret acc
  | q :: rest =>
      let '(total_score, max_score, correct_count) := acc in
      let* points := quiz_points config in
      let max_score := max_score + points in
      let* st := get_session in
      let selected := selected_of st q in
      let correct := is_correct selected (q_correct_answers q) in
      let* acc' :=
        (if correct then
           let* points := quiz_points config in
           ret (total_score + points, max_score, correct_count + 1)
         else ret (total_score, max_score, correct_count)) in
      let* earned := (if correct then quiz_points config else ret 0) in
      save_quiz_result (session_user_id st) (ss_current_course_id st) (q_id q)
                       selected correct earned ;;;
      score_loop config rest acc'
  end.

(** The assignments at the end of [submit_quiz]. *)
Definition show_result (total_score max_score : Z) (score_percent : Q)
    (passed : bool) (correct_count total : Z) (st : SessionState)
    : SessionState :=
  mkSessionState (ss_user_id st) (ss_current_course_id st)
                 (ss_passing_score st) (ss_quiz_time_limit st)
                 (ss_quiz_start_time st) (ss_quiz_answers st)
                 "result" total_score max_score score_percent passed
                 correct_count total.

(** [submit_quiz].  The two [EmailNotifier] calls catch their own
    exceptions and touch neither the database nor the session; they are
    left out.  [st.rerun()] ends the script run. *)
Definition submit_quiz (questions : list Question) (config : Config) : M unit :=
  let* '(total_score, max_score, correct_count) :=
    score_loop config questions (0, 0, 0) in
  let* score_percent := percent_of total_score max_score in
  let* st := get_session in
  let passed := reaches score_percent (ss_passing_score st) in
  save_course_score (session_user_id st) (ss_current_course_id st)
                    total_score max_score (ss_passing_score st) ;;;
  let* st := get_session in
  put_session (show_result total_score max_score score_percent passed
                           correct_count (Z.of_nat (length questions)) st).

(** ** [main_azure_sso.py]: the timer of [show_quiz_page] *)

(** [timedelta.total_seconds()] of a difference of instants. *)
Definition total_seconds (delta : Z) : Q := delta # 1000000.

(** [elapsed_time] and [remaining_time] of [show_quiz_page]. *)
Definition elapsed_time (now quiz_start_time : Z) : Q :=
  total_seconds (now - quiz_start_time).

Definition remaining_time (quiz_time_limit now quiz_start_time : Z) : Q :=
  (inject_Z quiz_time_limit - elapsed_time now quiz_start_time)%Q.

(** [remaining_time > 0], the test of [show_quiz_page]. *)
Definition time_left (quiz_time_limit now quiz_start_time : Z) : bool :=
  negb (Qle_bool (remaining_time quiz_time_limit now quiz_start_time) 0).

(** The [else] branch of that test: the quiz has expired. *)
Definition is_expired (quiz_time_limit now quiz_start_time : Z) : bool :=
  negb (time_left quiz_time_limit now quiz_start_time).

(** What the timer column of the page shows. *)
Inductive TimerView : Type :=
| TimeLeft (seconds : Z)     (* st.metric("残り時間", int(remaining_time)) *)
| TimeUp.                    (* st.metric("時間切れ", "0秒"), then submit *)

(** [int(x)] on a float: truncation towards zero. *)
Definition py_int (x : Q) : Z := Z.quot (Qnum x) (Z.pos (Qden x)).

(** [show_quiz_page] up to the timer: the files are loaded, the remaining
    time is computed from the stored start instant, and an expired quiz
    is submitted.  The widgets below the timer are not modelled. *)
Definition show_quiz_page : M TimerView :=
  let* config := _load_config in
  let* questions := (fun w => (Ok (questions_json w), w)) in
  let* now := datetime_now in
  let* st := get_session in
  let remaining :=
    remaining_time (ss_quiz_time_limit st) now (ss_quiz_start_time st) in
  if time_left (ss_quiz_time_limit st) now (ss_quiz_start_time st)
  then ret (TimeLeft (py_int remaining))
  else
    submit_quiz questions config ;;;
    ret TimeUp.

(** ** [main_azure_sso.py]: starting a quiz, registering at login *)

(** The assignments made when a quiz starts. *)
Definition quiz_begun (now : Z) (st : SessionState) : SessionState :=
  mkSessionState (ss_user_id st) (ss_current_course_id st)
                 (ss_passing_score st) (ss_quiz_time_limit st)
                 now ∅ "quiz"
                 (ss_result_score st) (ss_result_max_score st)
                 (ss_result_percent st) (ss_result_passed st)
                 (ss_result_correct st) (ss_result_total st).

(** The branch of the start button of [show_learning_page], which is also
    the branch of the retake button of [show_result_page]: the page
    becomes "quiz", the start instant is read from the clock and the
    answers are emptied.  The flag [quiz_started], which is set here and
    read nowhere, is not part of [SessionState]. *)
Definition start_quiz : M unit :=
  let* now := datetime_now in
  let* st := get_session in
  put_session (quiz_begun now st).

Definition with_quiz_answers (answers : gmap Z (list string))
    (st : SessionState) : SessionState :=
  mkSessionState (ss_user_id st) (ss_current_course_id st)
                 (ss_passing_score st) (ss_quiz_time_limit st)
                 (ss_quiz_start_time st) answers (ss_current_page st)
                 (ss_result_score st) (ss_result_max_score st)
                 (ss_result_percent st) (ss_result_passed st)
                 (ss_result_correct st) (ss_result_total st).

(** [st.session_state.quiz_answers[q['id']] = selected_letters], the
    assignment [show_quiz_page] makes for every question it displays. *)
Definition set_quiz_answer (question_id : Z) (selected_letters : list string)
    : M unit :=
  let* st := get_session in
  put_session
    (with_quiz_answers (<[question_id := selected_letters]> (ss_quiz_answers st))
                       st).



(** ** Vocabulary of the statements *)

(** No connection holds the write lock: the state between two calls of
    the application, which commits or closes before it returns. *)
Definition idle (w : World) : Prop := writer w = None.

(** The world a call leaves behind when it started idle, left the
    database [d], opened [conns] connections and read the clock [ticks]
    times. *)
Definition after_call (d : Database) (conns ticks : nat) (w : World) : World :=
  mkWorld d None (conns + next_conn w) (clock w) (ticks + reads w)
          (config_yaml w) (questions_json w) (session_state w).

(** The lock of a credential is in force at instant [now]. *)
Definition lock_in_force (row : Users.row) (now : Z) : bool :=
  match Users.locked_until row with
  | Some locked_until_dt => Z.ltb now locked_until_dt
  | None => false
  end.

(** The database when the password check is reached: the expired lock of
    the row, if it had one, has been cleared and committed. *)
Definition lock_cleared (row : Users.row) (d : Database) : Database :=
  match Users.locked_until row with
  | Some _ => users_where_id (Users.user_id row) (set_lock_state 0 None) d
  | None => d
  end.

(** The number of clock readings the lock check takes. *)
Definition lock_check_ticks (row : Users.row) : nat :=
  match Users.locked_until row with
  | Some _ => 1%nat
  | None => 0%nat
  end.

(** The rows of [course_scores] kept for a pair. *)
Definition scores_of (user_id course_id : Z) (d : Database)
    : list CourseScores.row :=
  List.filter (fun r => Z.eqb (CourseScores.user_id r) user_id
                        && Z.eqb (CourseScores.course_id r) course_id)
              (course_scores d).

(** At most one row of [course_scores] for every pair. *)
Definition one_score_per_pair (d : Database) : Prop :=
  forall user_id course_id, (length (scores_of user_id course_id d) <= 1)%nat.

(** The value [percent_of] computes. *)
Definition percent_value (total_score max_score : Z) : Q :=
  if Z.ltb 0 max_score
  then (inject_Z total_score / inject_Z max_score * 100)%Q
  else 0%Q.

(** The number of questions of the list answered correctly. *)
Definition count_correct (st : SessionState) (questions : list Question) : Z :=
  Z.of_nat (length (List.filter
    (fun q => is_correct (selected_of st q) (q_correct_answers q)) questions)).

(** Another connection, opened before this call, holds the write lock. *)
Definition locked_by_other (w : World) : Prop :=
  exists c d, writer w = Some (c, d) /\ (c < next_conn w)%nat.

(** The connection that holds the write lock, if there is one, was opened
    before this call: the database is idle or locked by another. *)
Definition connections_fresh (w : World) : Prop :=
  match writer w with
  | Some (c, _) => (c < next_conn w)%nat
  | None => True
  end.

(** The letters an answer map holds for question [q]: the entry under the
    id of the question, no letter when there is none. *)
Definition submitted_letters (answers : gmap Z (list string)) (q : Question)
    : list string :=
  match answers !! q_id q with
  | Some letters => letters
  | None => []
  end.

(** The points question [q] earns under an answer map when a question is
    worth [points]: all of them or none. *)
Definition points_earned (points : Z) (answers : gmap Z (list string))
    (q : Question) : Z :=
  if is_correct (submitted_letters answers q) (q_correct_answers q)
  then points else 0.

(** The points of a list of questions, and the number of them answered
    with exactly the correct letters. *)
Definition score_of (points : Z) (answers : gmap Z (list string))
    (questions : list Question) : Z :=
  fold_right (fun q total => points_earned points answers q + total) 0 questions.

Definition number_correct (answers : gmap Z (list string))
    (questions : list Question) : Z :=
  Z.of_nat (length (List.filter
    (fun q => is_correct (submitted_letters answers q) (q_correct_answers q))
    questions)).

(** Row [r'] is row [r] up to the three columns an evaluation may write:
    the failed count, the lock and the last login. *)
Definition same_identity (r r' : Users.row) : Prop :=
  Users.user_id r' = Users.user_id r
  /\ Users.username r' = Users.username r
  /\ Users.password_hash r' = Users.password_hash r
  /\ Users.email r' = Users.email r
  /\ Users.full_name r' = Users.full_name r
  /\ Users.role r' = Users.role r
  /\ Users.status r' = Users.status r.

(** The keys of the [users] table are what its constraints say:
    no two rows share a [user_id] or a [username]. *)
Definition users_keys_unique (d : Database) : Prop :=
  List.NoDup (List.map Users.user_id (users d))
  /\ List.NoDup (List.map Users.username (users d)).

(** ** Sample data *)

(** The SHA-256 digest of "secret" in hexadecimal, as a row of [users]
    would hold it. *)
Definition sample_hash : string :=
  "2bb80d537b1da3e38bd30361aa855686bde0eacd7162fef6a25fe97bf527a25b".

Definition sample_question_1 : Question :=
  mkQuestion 1 "Q1" [("A", "a"); ("B", "b"); ("C", "c")] ["A"; "B"] true.

Definition sample_question_2 : Question :=
  mkQuestion 2 "Q2" [("A", "a"); ("B", "b")] ["B"] false.

(** The session of an employee who signed in and is not in [users]: the
    [user_id] is the not-found dictionary.  Question 1 is answered with
    its two correct letters in the other order, question 2 with the wrong
    letter. *)
Definition sample_session : SessionState :=
  mkSessionState (Some (AuthFailed msg_not_found)) 3 70 300 1000
                 (<[1 := ["B"; "A"]]> (<[2 := ["A"]]> ∅))
                 "quiz" 0 0 0 false 0 0.

(** Two wrong attempts so far, no lock. *)
Definition alice : Users.row :=
  Users.mk 1 "alice" sample_hash "" "" "student" "active" 2 None None.

(** Suspended, with a lock that ended at instant 10. *)
Definition carol : Users.row :=
  Users.mk 2 "carol" sample_hash "" "" "student" "suspended" 3
           (Some 10) None.

(** Active, with a lock that ended at instant 10. *)
Definition dave : Users.row :=
  Users.mk 3 "dave" sample_hash "" "" "student" "active" 3
           (Some 10) None.

(** Active, never failed, never locked. *)
Definition bob : Users.row :=
  Users.mk 4 "bob" sample_hash "" "" "student" "active" 0 None None.

(** User 1 has a stored score of 20 out of 40 for course 3. *)
Definition sample_score : CourseScores.row :=
  CourseScores.mk 1 1 3 20 40 50 false 5.

Definition sample_database : Database :=
  mkDatabase [alice; carol; dave; bob] 4 [] 0 [] 0 [sample_score] 1.

Definition sample_config : Config :=
  mkConfig (Some (mkUsersSection (Some 3) (Some 30)))
           (Some (mkQuizSection None)).

(** The first reading is instant 1000, every later one a minute after it. *)
Definition sample_clock (n : nat) : Z :=
  match n with
  | O => 1000
  | S _ => 60001000
  end.

Definition sample_world : World :=
  mkWorld sample_database None 0 sample_clock 0 sample_config
          [sample_question_1; sample_question_2] sample_session.

(** Active, locked until long after the sample clock. *)
Definition erin : Users.row :=
  Users.mk 1 "erin" sample_hash "" "" "student" "active" 5
           (Some 9000000000) None.

Definition erin_world : World :=
  mkWorld (mkDatabase [erin] 1 [] 0 [] 0 [] 0) None 0 sample_clock 0
          sample_config [] sample_session.

(** The sample world while connection 0, opened earlier, holds the write
    lock. *)
Definition busy_world : World :=
  mkWorld sample_database (Some (0%nat, sample_database)) 1 sample_clock 0
          sample_config [sample_question_1; sample_question_2] sample_session.


(** ** Tactics

    [run_prog] runs a program on a world given field by field; [conns]
    settles the comparisons of connection numbers. *)
Ltac run_prog :=
  unfold try_except_integrity, try_except, bind, dropped_on_raise,
    get_connection, query, view, execute_write, commit, close, datetime_now,
    _load_config, get_session, put_session, ret, raise, hash_password,
    bind_user_id,
    sql_insert_login_log, sql_lock, sql_reset_lock, sql_set_failed_count,
    sql_login_success, update_users_where_id, sql_insert_quiz_result,
    sql_upsert_course_score; cbn.

#[local] Arguments with_login_log : simpl never.
#[local] Arguments users_where_id : simpl never.
#[local] Arguments select_user : simpl never.
#[local] Arguments with_quiz_result : simpl never.
#[local] Arguments with_course_score : simpl never.
#[local] Arguments py_round2 : simpl never.
#[local] Arguments reaches : simpl never.
#[local] Arguments is_correct : simpl never.
#[local] Arguments selected_of : simpl never.
#[local] Arguments users_get : simpl never.
#[local] Arguments timedelta_minutes : simpl never.
#[local] Arguments msg_not_found : simpl never.
#[local] Arguments msg_status : simpl never.
#[local] Arguments msg_locked : simpl never.
#[local] Arguments msg_locked_now : simpl never.
#[local] Arguments msg_remaining : simpl never.
#[local] Arguments log_not_found : simpl never.
#[local] Arguments log_status : simpl never.
#[local] Arguments log_locked : simpl never.
#[local] Arguments log_locked_now : simpl never.
#[local] Arguments log_remaining : simpl never.
#[local] Arguments Z.quot : simpl never.
#[local] Arguments Z.add : simpl never.
#[local] Arguments Z.sub : simpl never.
#[local] Arguments Z.ltb : simpl never.
#[local] Arguments Z.geb : simpl never.
#[local] Arguments String.eqb : simpl nomatch.
#[local] Arguments Nat.eqb : simpl never.
#[local] Arguments authenticate_user_check3 : simpl never.

Ltac conns :=
  repeat (first [ rewrite Nat.eqb_refl
                | rewrite (proj2 (Nat.eqb_neq (S _) _)) by lia ]; cbn).

(** Equality of two runs that differ in the arithmetic of the triple
    [(total_score, max_score, correct_count)] only. *)
Ltac triple_eq :=
  match goal with
  | |- (Ok (?a, ?b, ?c), ?w) = (Ok (?a', ?b', ?c'), ?w) =>
      apply (f_equal (fun x => (Ok x, w)));
      apply (f_equal2 pair); [apply (f_equal2 pair)|]; lia
  end.

(** * Properties *)

(** ** The monad and the connections *)

Lemma bind_ok {A B} (m : M A) (k : A -> M B) w a w' :
  m w = (Ok a, w') -> bind m k w = k a w'.
Proof. intros H. unfold bind. rewrite H. reflexivity. Qed.

Lemma idle_connections_fresh w : idle w -> connections_fresh w.
Proof. unfold idle, connections_fresh. intros ->. exact I. Qed.

Lemma locked_by_other_connections_fresh w :
  locked_by_other w -> connections_fresh w.
Proof.
  intros (c & d & Hw & Hc). unfold connections_fresh. rewrite Hw. exact Hc.
Qed.

Lemma connections_fresh_next_conn w n :
  connections_fresh w -> connections_fresh (with_next_conn (n + next_conn w) w).
Proof.
  unfold connections_fresh. cbn. destruct (writer w) as [[c d]|]; [lia|auto].
Qed.

(** On an idle database the attempt is written and committed. *)
Lemma log_attempt_idle uid u s ip ua e w :
  idle w ->
  _log_login_attempt uid u s ip ua e w =
    (Ok true, after_call (with_login_log uid u s ip ua e (disk w)) 1 0 w).
Proof.
  unfold idle. destruct w as [d wr nc clk rd cfg qs ss]; cbn. intros ->.
  unfold _log_login_attempt, try_except, bind, dropped_on_raise, get_connection,
    execute_write, commit, close; cbn.
  rewrite Nat.eqb_refl. cbn. reflexivity.
Qed.

(** While another connection holds the write lock the attempt is lost:
    the INSERT raises, the exception is caught, nothing is written. *)
Lemma log_attempt_busy uid u s ip ua e w c d :
  writer w = Some (c, d) -> c <> next_conn w ->
  _log_login_attempt uid u s ip ua e w =
    (Ok false, with_next_conn (S (next_conn w)) w).
Proof.
  destruct w as [d0 wr nc clk rd cfg qs ss]; cbn. intros -> Hne.
  unfold _log_login_attempt, try_except, bind, dropped_on_raise, get_connection,
    execute_write, commit, close; cbn.
  destruct (Nat.eqb nc c) eqn:E.
  - apply Nat.eqb_eq in E. congruence.
  - cbn. rewrite E. reflexivity.
Qed.

(** ** The [users] table under the statements *)

(** An UPDATE by [user_id] that keeps usernames changes the row a
    username selects exactly when the key is the key of that row. *)
Lemma select_user_where_id u d row uid f :
  select_user u d = Some row ->
  uid = Users.user_id row ->
  (forall r, Users.username (f r) = Users.username r) ->
  select_user u (users_where_id uid f d) = Some (f row).
Proof.
  unfold select_user, users_where_id. cbn. intros Hsel -> Hname.
  induction (users d) as [|r rs IH]; cbn in *; [discriminate|].
  destruct (String.eqb (Users.username r) u) eqn:Er.
  - injection Hsel as ->. rewrite Z.eqb_refl, Hname, Er. reflexivity.
  - assert (Hr : String.eqb
                   (Users.username
                      (if Z.eqb (Users.user_id r) (Users.user_id row)
                       then f r else r)) u = false).
    { destruct (Z.eqb (Users.user_id r) (Users.user_id row));
        [rewrite Hname|]; exact Er. }
    rewrite Hr. apply IH, Hsel.
Qed.

Lemma select_user_lock_cleared u d row :
  select_user u d = Some row ->
  select_user u (lock_cleared row d) =
    Some (match Users.locked_until row with
          | Some _ => set_lock_state 0 None row
          | None => row
          end).
Proof.
  intros Hsel. unfold lock_cleared.
  destruct (Users.locked_until row); [|exact Hsel].
  apply select_user_where_id; auto.
Qed.

Lemma login_logs_lock_cleared row d :
  login_logs (lock_cleared row d) = login_logs d.
Proof. unfold lock_cleared. destruct (Users.locked_until row); reflexivity. Qed.

(** The [users] table when the password check is reached. *)
Lemma users_lock_cleared row d :
  users (lock_cleared row d) =
    List.map
      (fun r =>
         if Z.eqb (Users.user_id r) (Users.user_id row)
         then match Users.locked_until row with
              | Some _ => set_lock_state 0 None r
              | None => r
              end
         else r)
      (users d).
Proof.
  unfold lock_cleared, users_where_id.
  destruct (Users.locked_until row); cbn [users set_users]; [reflexivity|].
  rewrite <- (List.map_id (users d)) at 1. apply List.map_ext. intros r.
  destruct (Z.eqb (Users.user_id r) (Users.user_id row)); reflexivity.
Qed.


(** ** The paths of [authenticate_user] *)

Lemma authenticate_not_found u p ip ua w :
  idle w -> select_user u (disk w) = None ->
  authenticate_user u p ip ua w =
    (Ok (AuthFailed msg_not_found),
     after_call (with_login_log None u "failed" ip ua (Some log_not_found) (disk w))
                2 0 w).
Proof.
  unfold idle. destruct w as [d wr nc clk rd cfg qs ss]; cbn. intros -> Hsel.
  unfold authenticate_user, _log_login_attempt. run_prog.
  rewrite Hsel. cbn. rewrite Nat.eqb_refl. reflexivity.
Qed.

Lemma authenticate_disabled u p ip ua w row :
  idle w -> select_user u (disk w) = Some row ->
  Users.status row <> "active" ->
  authenticate_user u p ip ua w =
    (Ok (AuthFailed (msg_status (Users.status row))),
     after_call (with_login_log (Some (Users.user_id row)) u "failed" ip ua
                                (Some (log_status (Users.status row))) (disk w))
                2 0 w).
Proof.
  unfold idle. destruct w as [d wr nc clk rd cfg qs ss]; cbn. intros -> Hsel Hst.
  unfold authenticate_user, _log_login_attempt. run_prog.
  rewrite Hsel. apply String.eqb_neq in Hst. rewrite Hst. cbn.
  rewrite Nat.eqb_refl. reflexivity.
Qed.

Lemma authenticate_locked u p ip ua w row lu :
  idle w -> select_user u (disk w) = Some row ->
  Users.status row = "active" ->
  Users.locked_until row = Some lu ->
  clock w (reads w) < lu ->
  let remaining_minutes := Z.quot (lu - clock w (S (reads w))) 60000000 in
  authenticate_user u p ip ua w =
    (Ok (AuthFailed (msg_locked remaining_minutes)),
     after_call (with_login_log (Some (Users.user_id row)) u "failed" ip ua
                                (Some (log_locked remaining_minutes)) (disk w))
                2 2 w).
Proof.
  unfold idle. destruct w as [d wr nc clk rd cfg qs ss]; cbn. intros -> Hsel Hst Hlu Hlt.
  unfold authenticate_user, _log_login_attempt. run_prog.
  rewrite Hsel, Hst, Hlu. cbn. apply Z.ltb_lt in Hlt. rewrite Hlt. cbn.
  rewrite Nat.eqb_refl. reflexivity.
Qed.

(** An active credential whose lock is not in force reaches the password
    check, where the call of [hash_password] raises: an expired lock has
    been cleared and committed by then, nothing else is written, and the
    connection is released. *)
Lemma authenticate_password_check u p ip ua w row :
  idle w -> select_user u (disk w) = Some row ->
  Users.status row = "active" ->
  lock_in_force row (clock w (reads w)) = false ->
  authenticate_user u p ip ua w =
    (Raise AttributeError,
     after_call (lock_cleared row (disk w)) 1 (lock_check_ticks row) w).
Proof.
  unfold idle, lock_in_force, lock_cleared, lock_check_ticks.
  destruct w as [d wr nc clk rd cfg qs ss]; cbn.
  intros -> Hsel Hst Hlock.
  unfold authenticate_user, authenticate_user_check3. run_prog.
  rewrite Hsel, Hst. cbn.
  destruct (Users.locked_until row) as [lu|]; cbn.
  - rewrite Hlock. cbn. conns. reflexivity.
  - reflexivity.
Qed.

(** ** Lockout *)

(** C1.  The lock is never stored.  "alice" is active, not locked, and
    has failed twice; the limit is 3.  A wrong secret should bring the
    count to 3, store [locked_until] and answer locked-just-now.  The
    evaluation ends in [AttributeError] at the call of [hash_password]
    instead, before the count is compared with the limit, and her row is
    as it was: count 2, no lock. *)
Theorem wrong_secret_at_limit_stores_no_lock :
  let w1 := snd (authenticate_user "alice" "wrong" "" "" sample_world) in
  select_user "alice" (disk sample_world) = Some alice
  /\ Users.status alice = "active"
  /\ Users.locked_until alice = None
  /\ Users.failed_login_count alice + 1 =
       users_get (config_yaml sample_world) max_login_attempts 5
  /\ fst (authenticate_user "alice" "wrong" "" "" sample_world) =
       Raise AttributeError
  /\ select_user "alice" (disk w1) = Some alice
  /\ idle w1.
Proof. repeat split; vm_compute; reflexivity. Qed.

(** ** Failure messages *)

(** The message for an unknown username is none of the other messages. *)
Lemma msg_status_not_msg_not_found status : msg_status status <> msg_not_found.
Proof. unfold msg_status, msg_not_found. cbn. discriminate. Qed.

Lemma msg_locked_not_msg_not_found m : msg_locked m <> msg_not_found.
Proof. unfold msg_locked, msg_not_found. cbn. discriminate. Qed.

Lemma msg_remaining_not_msg_not_found k : msg_remaining k <> msg_not_found.
Proof. unfold msg_remaining, msg_not_found. cbn. discriminate. Qed.

Lemma msg_locked_now_not_msg_not_found a b : msg_locked_now a b <> msg_not_found.
Proof. unfold msg_locked_now, msg_not_found. cbn. discriminate. Qed.

(** C2, as the code has it.  An unknown username always gets the one
    fixed message [msg_not_found].  No failure message returned for a
    known username is that message, and the two messages the code
    composes for a wrong secret, the one that counts the attempts left
    and the locked-just-now one, are other texts as well: the message is
    not made to hide whether the account exists. *)
Theorem not_found_message_not_shared u p ip ua w :
  idle w ->
  (select_user u (disk w) = None ->
   fst (authenticate_user u p ip ua w) = Ok (AuthFailed msg_not_found))
  /\ (forall row message,
        select_user u (disk w) = Some row ->
        fst (authenticate_user u p ip ua w) = Ok (AuthFailed message) ->
        message <> msg_not_found)
  /\ (forall remaining_attempts,
        msg_remaining remaining_attempts <> msg_not_found)
  /\ (forall max_attempts lockout_minutes,
        msg_locked_now max_attempts lockout_minutes <> msg_not_found).
Proof.
  intros Hidle. split; [|split; [|split]].
  - intros Hnone. rewrite authenticate_not_found by assumption. reflexivity.
  - intros row message Hsel.
    destruct (String.eqb_spec (Users.status row) "active") as [Hst|Hst].
    + destruct (lock_in_force row (clock w (reads w))) eqn:Hlock.
      * unfold lock_in_force in Hlock.
        destruct (Users.locked_until row) as [lu|] eqn:Hlu; [|discriminate].
        apply Z.ltb_lt in Hlock.
        rewrite (authenticate_locked u p ip ua w row lu) by assumption.
        cbn [fst]. intros H. injection H as <-.
        apply msg_locked_not_msg_not_found.
      * rewrite (authenticate_password_check u p ip ua w row) by assumption.
        discriminate.
    + rewrite (authenticate_disabled u p ip ua w row) by assumption.
      cbn [fst]. intros H. injection H as <-.
      apply msg_status_not_msg_not_found.
  - exact msg_remaining_not_msg_not_found.
  - exact msg_locked_now_not_msg_not_found.
Qed.

(** ** Lock expiry *)


(** ** [add_user] *)

(** [add_user] ends in [AttributeError] before its INSERT, for every
    username: the exception is not an [IntegrityError], so it is not
    caught, and the connection is released. *)
Lemma add_user_run u pw e fn r w :
  connections_fresh w ->
  add_user u pw e fn r w =
    (Raise AttributeError, with_next_conn (1 + next_conn w) w).
Proof.
  unfold connections_fresh. destruct w as [d wr nc clk rd cfg qs ss]; cbn.
  intros Hfresh. unfold add_user. run_prog.
  destruct wr as [[c0 d0]|]; [|reflexivity].
  rewrite (proj2 (Nat.eqb_neq nc c0)) by lia. reflexivity.
Qed.

(** C10.  The username "alice" is in the [users] table.  [add_user] with
    that username should return [False]; it ends in [AttributeError] at
    the call of [hash_password], which comes before the INSERT, and the
    [except sqlite3.IntegrityError] clause does not catch it.  The
    database is unchanged. *)
Theorem add_user_existing_username_raises :
  let run := add_user "alice" "other" "a@example.com" "Alice" "student"
                      sample_world in
  select_user "alice" (disk sample_world) = Some alice
  /\ fst run = Raise AttributeError
  /\ fst run <> Ok false
  /\ disk (snd run) = disk sample_world
  /\ idle (snd run).
Proof. repeat split; try discriminate; vm_compute; reflexivity. Qed.

(** ** The attempt ledger *)

(** C9.  No record for an evaluation that reaches the password check.
    "alice" is active and not locked; she gives her secret.  The
    evaluation ends in [AttributeError] at the call of [hash_password],
    which comes before every [_log_login_attempt] call of that part of
    [authenticate_user]: [login_logs] is as empty as before. *)
Theorem password_check_attempt_not_logged :
  let w1 := snd (authenticate_user "alice" "secret" "" "" sample_world) in
  select_user "alice" (disk sample_world) = Some alice
  /\ Users.status alice = "active"
  /\ Users.locked_until alice = None
  /\ fst (authenticate_user "alice" "secret" "" "" sample_world) =
       Raise AttributeError
  /\ login_logs (disk sample_world) = []
  /\ login_logs (disk w1) = []
  /\ idle w1.
Proof. repeat split; vm_compute; reflexivity. Qed.

(** ** Storing results *)

Lemma percent_of_value total_score max_score w :
  percent_of total_score max_score w =
    (Ok (percent_value total_score max_score), w).
Proof.
  unfold percent_of, percent_value, py_truediv, bind, ret, raise.
  destruct (Z.ltb 0 max_score) eqn:E; [|reflexivity].
  apply Z.ltb_lt in E.
  destruct (Z.eqb max_score 0) eqn:E0; [|reflexivity].
  apply Z.eqb_eq in E0. lia.
Qed.

(** Whatever the state of the database and whatever is passed as
    [user_id], [save_quiz_result] returns. *)
Lemma save_quiz_result_returns uid cid qid sel c e w :
  exists b w', save_quiz_result uid cid qid sel c e w = (Ok b, w').
Proof.
  unfold save_quiz_result, try_except.
  match goal with |- context [match ?m w with _ => _ end] =>
    destruct (m w) as [[b|x] w'] end; eexists _, _; reflexivity.
Qed.

(** With an integer [user_id] and an idle database the score is stored. *)
Lemma save_course_score_idle (uid : Z) cid t m ps w :
  idle w ->
  save_course_score uid cid t m ps w =
    (Ok (Some (mkScoreDict t m (py_round2 (percent_value t m))
                           (reaches (percent_value t m) ps))),
     after_call (with_course_score uid cid t m (percent_value t m)
                                   (reaches (percent_value t m) ps)
                                   (clock w (reads w)) (disk w))
                1 1 w).
Proof.
  intros Hidle. unfold save_course_score.
  rewrite (bind_ok _ _ _ _ _ (percent_of_value t m w)).
  unfold idle in Hidle. destruct w as [d wr nc clk rd cfg qs ss]; cbn in *.
  subst wr. run_prog. conns. reflexivity.
Qed.

(** Whatever the state of the database and whatever is passed as
    [user_id], [save_course_score] returns. *)
Lemma save_course_score_returns uid cid t m ps w :
  exists r w', save_course_score uid cid t m ps w = (Ok r, w').
Proof.
  unfold save_course_score.
  rewrite (bind_ok _ _ _ _ _ (percent_of_value t m w)).
  unfold try_except.
  match goal with |- context [match ?m w with _ => _ end] =>
    destruct (m w) as [[b|x] w'] end; eexists _, _; reflexivity.
Qed.

(** With what the session holds as [user_id] nothing is stored: a
    dictionary cannot be bound, [None] violates [NOT NULL], and while
    another connection holds the lock the statement cannot run.  Every
    exception is caught; the connection is released. *)
Lemma save_quiz_result_session st cid qid sel c e w :
  connections_fresh w ->
  save_quiz_result (session_user_id st) cid qid sel c e w =
    (Ok false, with_next_conn (1 + next_conn w) w).
Proof.
  unfold connections_fresh, session_user_id.
  destruct w as [d0 wr nc clk rd cfg qs ss]; cbn. intros Hfresh.
  unfold save_quiz_result, sql_insert_quiz_result.
  destruct (ss_user_id st) as [dict|]; destruct wr as [[c0 d1]|]; run_prog;
    try (rewrite (proj2 (Nat.eqb_neq nc c0)) by lia; cbn;
         rewrite ?(proj2 (Nat.eqb_neq nc c0)) by lia);
    conns; reflexivity.
Qed.

Lemma save_course_score_session st cid t m ps w :
  connections_fresh w ->
  save_course_score (session_user_id st) cid t m ps w =
    (Ok None, with_reads (S (reads w)) (with_next_conn (1 + next_conn w) w)).
Proof.
  intros Hfresh. unfold save_course_score.
  rewrite (bind_ok _ _ _ _ _ (percent_of_value t m w)).
  unfold connections_fresh, session_user_id in *.
  destruct w as [d0 wr nc clk rd cfg qs ss]; cbn in *.
  unfold sql_upsert_course_score.
  destruct (ss_user_id st) as [dict|]; destruct wr as [[c0 d1]|]; run_prog;
    try (rewrite (proj2 (Nat.eqb_neq nc c0)) by lia; cbn;
         rewrite ?(proj2 (Nat.eqb_neq nc c0)) by lia);
    conns; reflexivity.
Qed.

(** ** The scoring loop *)

Lemma quiz_points_some config section :
  cfg_quiz config = Some section ->
  quiz_points config = ret (from_option id 20 (points_per_question section)).
Proof. intros H. unfold quiz_points. rewrite H. reflexivity. Qed.

Lemma count_correct_cons st q qs :
  count_correct st (q :: qs) =
    (if is_correct (selected_of st q) (q_correct_answers q) then 1 else 0)
    + count_correct st qs.
Proof.
  unfold count_correct. cbn [List.filter].
  destruct (is_correct (selected_of st q) (q_correct_answers q)); cbn [length]; lia.
Qed.

(** The letters [submit_quiz] reads are the letters of the answer map. *)
Lemma count_correct_number st qs :
  count_correct st qs = number_correct (ss_quiz_answers st) qs.
Proof. reflexivity. Qed.

Lemma score_of_number points answers qs :
  score_of points answers qs = points * number_correct answers qs.
Proof.
  unfold score_of, number_correct, points_earned.
  induction qs as [|q qs IH]; cbn [fold_right List.filter length]; [lia|].
  rewrite IH.
  destruct (is_correct (submitted_letters answers q) (q_correct_answers q));
    cbn [length]; lia.
Qed.

(** With a [quiz] section in the configuration the loop counts the
    points and tries one save per question, none of which stores a row. *)
Lemma score_loop_session config section qs :
  cfg_quiz config = Some section ->
  forall t m c w,
    connections_fresh w ->
    score_loop config qs (t, m, c) w =
      (Ok (t + from_option id 20 (points_per_question section)
               * count_correct (session_state w) qs,
           m + from_option id 20 (points_per_question section)
               * Z.of_nat (length qs),
           c + count_correct (session_state w) qs),
       with_next_conn (length qs + next_conn w) w).
Proof.
  intros Hcfg. induction qs as [|q qs IH]; intros t m c w Hfresh.
  - unfold count_correct. cbn. unfold ret, with_next_conn.
    destruct w; cbn. triple_eq.
  - cbn [score_loop]. rewrite (quiz_points_some _ _ Hcfg).
    unfold bind at 1, ret at 1. unfold bind at 1, get_session at 1.
    rewrite count_correct_cons.
    destruct (is_correct (selected_of (session_state w) q) (q_correct_answers q))
      eqn:Hc.
    + unfold bind at 1, ret at 1. unfold bind at 1, bind at 1, ret at 1, ret at 1.
      unfold bind at 1. rewrite save_quiz_result_session by exact Hfresh.
      rewrite IH by (apply connections_fresh_next_conn, Hfresh).
      cbn [session_state with_next_conn next_conn length].
      replace (length qs + (1 + next_conn w))%nat
        with (S (length qs) + next_conn w)%nat by lia.
      unfold with_next_conn. cbn. triple_eq.
    + unfold bind at 1, ret at 1. unfold bind at 1, ret at 1.
      unfold bind at 1. rewrite save_quiz_result_session by exact Hfresh.
      rewrite IH by (apply connections_fresh_next_conn, Hfresh).
      cbn [session_state with_next_conn next_conn length].
      replace (length qs + (1 + next_conn w))%nat
        with (S (length qs) + next_conn w)%nat by lia.
      unfold with_next_conn. cbn. triple_eq.
Qed.

(** [submit_quiz] with a [quiz] section: the result page is set from the
    answers of the session; the database and the lock are as before. *)
Lemma submit_quiz_run config section qs w :
  cfg_quiz config = Some section ->
  connections_fresh w ->
  let st := session_state w in
  let points := from_option id 20 (points_per_question section) in
  let total := points * count_correct st qs in
  let max := points * Z.of_nat (length qs) in
  submit_quiz qs config w =
    (Ok tt,
     with_session_state
       (show_result total max (percent_value total max)
                    (reaches (percent_value total max) (ss_passing_score st))
                    (count_correct st qs) (Z.of_nat (length qs)) st)
       (with_reads (S (reads w))
                   (with_next_conn (S (length qs) + next_conn w) w))).
Proof.
  intros Hcfg Hfresh st points total max. unfold submit_quiz.
  rewrite (bind_ok _ _ _ _ _
             (score_loop_session config section qs Hcfg 0 0 0 w Hfresh)).
  rewrite !Z.add_0_l. fold st points total max.
  rewrite (bind_ok _ _ _ _ _ (percent_of_value total max _)).
  unfold bind at 1, get_session at 1.
  rewrite (bind_ok _ _ _ _ _
             (save_course_score_session _ _ _ _ _ _
                (connections_fresh_next_conn w (length qs) Hfresh))).
  unfold bind, get_session, put_session. reflexivity.
Qed.

(** ** The [course_scores] table *)

Lemma filter_filter_none {A} (P Q : A -> bool) (l : list A) :
  (forall x, Q x = true -> P x = false) ->
  List.filter P (List.filter Q l) = [].
Proof.
  intros H. induction l as [|x xs IH]; cbn; [reflexivity|].
  destruct (Q x) eqn:E; [|exact IH]. cbn. rewrite (H x E). exact IH.
Qed.

Lemma filter_filter_length {A} (P Q : A -> bool) (l : list A) :
  (length (List.filter P (List.filter Q l)) <= length (List.filter P l))%nat.
Proof.
  induction l as [|x xs IH]; cbn; [lia|].
  destruct (Q x); cbn; destruct (P x); cbn; lia.
Qed.

(** After the upsert the pair has exactly the new row. *)
Lemma scores_of_upserted uid cid t m pct ps now d :
  scores_of uid cid (with_course_score uid cid t m pct ps now d) =
    [CourseScores.mk
       (next_rowid (List.map CourseScores.score_id (course_scores d))
                   (seq_course_scores d))
       uid cid t m pct ps now].
Proof.
  unfold scores_of, with_course_score. cbn [course_scores set_course_scores].
  rewrite List.filter_app, filter_filter_none.
  - cbn. rewrite !Z.eqb_refl. reflexivity.
  - intros r Hr. unfold score_conflict in Hr. cbn in Hr.
    apply Bool.negb_true_iff, Bool.orb_false_iff in Hr. apply Hr.
Qed.

(** The upsert adds no row to any other pair. *)
Lemma scores_of_other_pair uid cid uid' cid' t m pct ps now d :
  Z.eqb uid uid' && Z.eqb cid cid' = false ->
  (length (scores_of uid' cid' (with_course_score uid cid t m pct ps now d))
   <= length (scores_of uid' cid' d))%nat.
Proof.
  intros Hne. unfold scores_of, with_course_score.
  cbn [course_scores set_course_scores].
  rewrite List.filter_app, List.length_app. cbn. rewrite Hne. cbn.
  rewrite Nat.add_0_r. apply filter_filter_length.
Qed.

Lemma upsert_keeps_one_score_per_pair uid cid t m pct ps now d :
  one_score_per_pair d ->
  one_score_per_pair (with_course_score uid cid t m pct ps now d).
Proof.
  intros Hinv uid' cid'.
  destruct (Z.eqb uid uid' && Z.eqb cid cid') eqn:E.
  - apply andb_prop in E. destruct E as [E1 E2].
    apply Z.eqb_eq in E1, E2. subst. rewrite scores_of_upserted. cbn. lia.
  - etransitivity; [apply scores_of_other_pair, E|apply Hinv].
Qed.

Lemma select_course_score_scores_of uid cid d :
  select_course_score uid cid d = List.head (scores_of uid cid d).
Proof.
  unfold select_course_score, scores_of.
  induction (course_scores d) as [|r rs IH]; cbn; [reflexivity|].
  destruct (Z.eqb (CourseScores.user_id r) uid
            && Z.eqb (CourseScores.course_id r) cid); [reflexivity|exact IH].
Qed.

(** C8.  The [course_scores] table never holds two rows for one (user,
    course) pair: it starts empty, [save_course_score] keeps the
    property, and after a save the pair has exactly one row, the one of
    this submission, which is also the row [get_user_course_score] reads;
    [submit_quiz], the caller of [save_course_score], keeps the property
    as well. *)
Theorem one_course_score_per_pair :
  one_score_per_pair empty_database
  /\ (forall (uid : Z) cid t m ps w,
        idle w ->
        one_score_per_pair (disk w) ->
        let w1 := snd (save_course_score uid cid t m ps w) in
        one_score_per_pair (disk w1)
        /\ idle w1
        /\ exists row,
             scores_of uid cid (disk w1) = [row]
             /\ fst (get_user_course_score uid cid w1) = Ok (Some row)
             /\ CourseScores.total_score row = t
             /\ CourseScores.max_score row = m
             /\ CourseScores.score_percent row = percent_value t m
             /\ CourseScores.passed row = reaches (percent_value t m) ps
             /\ CourseScores.completed_at row = clock w (reads w))
  /\ (forall qs config section w,
        idle w ->
        cfg_quiz config = Some section ->
        one_score_per_pair (disk w) ->
        one_score_per_pair (disk (snd (submit_quiz qs config w)))).
Proof.
  split; [|split].
  - intros uid cid. cbn. lia.
  - intros uid cid t m ps w Hidle Hinv w1. subst w1.
    rewrite save_course_score_idle by exact Hidle. cbn [snd after_call disk].
    split; [apply upsert_keeps_one_score_per_pair, Hinv|].
    split; [reflexivity|].
    eexists. split; [apply scores_of_upserted|].
    split; [|repeat split].
    unfold get_user_course_score, bind, get_connection, query, view, close, ret.
    cbn [fst writer with_next_conn after_call disk].
    rewrite select_course_score_scores_of, scores_of_upserted. reflexivity.
  - intros qs config section w Hidle Hcfg Hinv.
    rewrite (submit_quiz_run config section qs w Hcfg
               (idle_connections_fresh w Hidle)).
    exact Hinv.
Qed.

(** ** Scoring *)

(** [set(selected) == set(correct_answers)] says that the two lists hold
    the same letters. *)
Lemma is_correct_iff selected correct :
  is_correct selected correct = true <->
  (forall x, In x selected <-> In x correct).
Proof.
  unfold is_correct. rewrite bool_decide_eq_true. split.
  - intros H x. rewrite <- !list_elem_of_In.
    rewrite <- (elem_of_list_to_set (C := gset string) x selected).
    rewrite <- (elem_of_list_to_set (C := gset string) x correct).
    rewrite H. reflexivity.
  - intros H. apply set_eq. intros x.
    rewrite !elem_of_list_to_set, !list_elem_of_In. apply H.
Qed.

Lemma is_correct_false selected correct x :
  (In x selected /\ ~ In x correct) \/ (~ In x selected /\ In x correct) ->
  is_correct selected correct = false.
Proof.
  intros H. destruct (is_correct selected correct) eqn:E; [|reflexivity].
  rewrite is_correct_iff in E. specialize (E x). tauto.
Qed.

(** C3.  An answer is scored correct exactly when the submitted letters
    and the correct letters are the same set; one correct letter missing,
    or one letter too many, makes it incorrect.  In [submit_quiz] the
    letters of a question are the entry of [quiz_answers] under its id
    (none when there is no entry); a question whose letters miss a
    correct letter, or hold a letter that is not correct, earns 0, any
    other earns the full points; and the score, the number of correct
    answers and the number of questions shown on the result page are the
    sum of the points earned, the number of questions answered with
    exactly the correct letters, and the length of the question list. *)
Theorem exact_set_scoring :
  (forall selected correct,
     is_correct selected correct = true <->
     (forall x, In x selected <-> In x correct))
  /\ (forall selected correct x,
        In x correct ->
        (forall y, In y selected <-> (In y correct /\ y <> x)) ->
        is_correct selected correct = false)
  /\ (forall selected correct x,
        ~ In x correct ->
        (forall y, In y selected <-> (In y correct \/ y = x)) ->
        is_correct selected correct = false)
  /\ (forall points answers q x,
        (In x (q_correct_answers q) /\ ~ In x (submitted_letters answers q))
        \/ (~ In x (q_correct_answers q) /\ In x (submitted_letters answers q)) ->
        points_earned points answers q = 0)
  /\ (forall points answers q,
        (forall x, In x (submitted_letters answers q)
                   <-> In x (q_correct_answers q)) ->
        points_earned points answers q = points)
  /\ (forall qs config section w,
        connections_fresh w ->
        cfg_quiz config = Some section ->
        let answers := ss_quiz_answers (session_state w) in
        let points := from_option id 20 (points_per_question section) in
        let st1 := session_state (snd (submit_quiz qs config w)) in
        fst (submit_quiz qs config w) = Ok tt
        /\ ss_result_score st1 = score_of points answers qs
        /\ ss_result_correct st1 = number_correct answers qs
        /\ ss_result_total st1 = Z.of_nat (length qs)).
Proof.
  split; [exact is_correct_iff|]. split; [|split; [|split; [|split]]].
  - intros selected correct x Hin Hsel.
    apply (is_correct_false selected correct x). right. split; [|exact Hin].
    rewrite Hsel. tauto.
  - intros selected correct x Hnin Hsel.
    apply (is_correct_false selected correct x). left. split; [|exact Hnin].
    rewrite Hsel. tauto.
  - intros points answers q x H. unfold points_earned.
    rewrite (is_correct_false _ _ x); [reflexivity|tauto].
  - intros points answers q H. unfold points_earned.
    rewrite (proj2 (is_correct_iff _ _) H). reflexivity.
  - intros qs config section w Hfresh Hcfg answers points st1. subst st1.
    rewrite (submit_quiz_run config section qs w Hcfg Hfresh).
    cbn [fst snd with_session_state session_state show_result
         ss_result_score ss_result_correct ss_result_total].
    rewrite score_of_number, count_correct_number. repeat split.
Qed.

(** ** Submitting twice *)

(** C5, as the code has it.  [submit_quiz] keeps no record that a session
    was submitted.  Called again, with whatever answers the session holds
    by then, it runs the scoring loop again, opening one connection per
    question and one for the course score as the first call did, and
    sets the result shown from those answers, whatever result was shown
    before.  The retake button of the result page empties the answers
    and opens the quiz page again for the same user and course. *)
Theorem second_submit_scores_again qs config section w answers :
  connections_fresh w ->
  cfg_quiz config = Some section ->
  let points := from_option id 20 (points_per_question section) in
  let w1 := snd (submit_quiz qs config w) in
  let w1' :=
    with_session_state (with_quiz_answers answers (session_state w1)) w1 in
  let w2 := snd (submit_quiz qs config w1') in
  let w3 := snd (start_quiz w2) in
  ss_current_page (session_state w1) = "result"
  /\ ss_result_score (session_state w1) =
       score_of points (ss_quiz_answers (session_state w)) qs
  /\ fst (submit_quiz qs config w1') = Ok tt
  /\ ss_result_score (session_state w2) = score_of points answers qs
  /\ ss_result_correct (session_state w2) = number_correct answers qs
  /\ next_conn w2 = (S (length qs) + next_conn w1)%nat
  /\ ss_current_page (session_state w3) = "quiz"
  /\ ss_quiz_answers (session_state w3) = ∅
  /\ ss_user_id (session_state w3) = ss_user_id (session_state w)
  /\ ss_current_course_id (session_state w3) =
       ss_current_course_id (session_state w).
Proof.
  intros Hfresh Hcfg points w1 w1' w2 w3.
  assert (H1 := submit_quiz_run config section qs w Hcfg Hfresh).
  cbn zeta in H1.
  assert (Hfresh1 : connections_fresh w1').
  { subst w1' w1. rewrite H1. exact (connections_fresh_next_conn w _ Hfresh). }
  assert (H2 := submit_quiz_run config section qs w1' Hcfg Hfresh1).
  cbn zeta in H2.
  subst w3 w2. rewrite H2. clear H2. subst w1' w1. rewrite H1. clear H1.
  cbn [fst snd with_session_state session_state show_result with_quiz_answers
       ss_current_page ss_result_score ss_result_correct ss_quiz_answers
       next_conn with_reads with_next_conn start_quiz].
  rewrite !score_of_number, !count_correct_number.
  repeat split.
Qed.

(** ** The percentage *)

(** The scoring loop can fail on the missing [quiz] section only. *)
Lemma score_loop_no_division_error config qs :
  forall acc w, fst (score_loop config qs acc w) <> Raise ZeroDivisionError.
Proof.
  induction qs as [|q qs IH]; intros [[t m] c] w; [discriminate|].
  cbn [score_loop]. unfold quiz_points.
  destruct (cfg_quiz config) as [section|]; [|discriminate].
  unfold bind at 1, ret at 1. unfold bind at 1, get_session at 1.
  destruct (is_correct (selected_of (session_state w) q) (q_correct_answers q)).
  - unfold bind at 1, bind at 1, ret at 1, ret at 1.
    unfold bind at 1, ret at 1. unfold bind at 1.
    match goal with |- context [save_quiz_result ?a ?b ?c ?d ?e ?f w] =>
      destruct (save_quiz_result_returns a b c d e f w) as (x & w' & ->) end.
    apply IH.
  - unfold bind at 1, ret at 1. unfold bind at 1, ret at 1. unfold bind at 1.
    match goal with |- context [save_quiz_result ?a ?b ?c ?d ?e ?f w] =>
      destruct (save_quiz_result_returns a b c d e f w) as (x & w' & ->) end.
    apply IH.
Qed.

(** Whatever the world, [submit_quiz] either fails in the loop or returns
    with the percentage of the stored total and maximum in the session. *)
Lemma submit_quiz_outcome qs config w :
  (exists e w', score_loop config qs (0, 0, 0) w = (Raise e, w')
                /\ submit_quiz qs config w = (Raise e, w'))
  \/ (exists t m c w1 w',
        score_loop config qs (0, 0, 0) w = (Ok (t, m, c), w1)
        /\ submit_quiz qs config w = (Ok tt, w')
        /\ ss_result_score (session_state w') = t
        /\ ss_result_max_score (session_state w') = m
        /\ ss_result_percent (session_state w') = percent_value t m).
Proof.
  unfold submit_quiz.
  destruct (score_loop config qs (0, 0, 0) w) as [[[[t m] c]|e] w1] eqn:Hloop.
  - right. unfold bind at 1. rewrite Hloop.
    rewrite (bind_ok _ _ _ _ _ (percent_of_value t m w1)).
    unfold bind at 1, get_session at 1. unfold bind at 1.
    destruct (save_course_score_returns (session_user_id (session_state w1))
                (ss_current_course_id (session_state w1)) t m
                (ss_passing_score (session_state w1)) w1) as (r & w2 & ->).
    unfold bind, get_session, put_session.
    eexists t, m, c, w1, _. repeat split.
  - left. exists e, w1. split; [reflexivity|].
    unfold bind at 1. rewrite Hloop. reflexivity.
Qed.

(** C7.  The percentage is [total_score / max_score * 100] when
    [max_score > 0] and 0 otherwise, in particular when [max_score = 0];
    computing it never raises [ZeroDivisionError], neither in
    [submit_quiz] nor in [save_course_score]; an empty question set gives
    maximum 0 and percentage 0. *)
Theorem percent_without_division_error :
  (forall t m w, percent_of t m w = (Ok (percent_value t m), w))
  /\ (forall t m,
        0 < m -> percent_value t m = (inject_Z t / inject_Z m * 100)%Q)
  /\ (forall t, percent_value t 0 = 0%Q)
  /\ (forall qs config w,
        fst (submit_quiz qs config w) <> Raise ZeroDivisionError)
  /\ (forall qs config w,
        fst (submit_quiz qs config w) = Ok tt ->
        let st := session_state (snd (submit_quiz qs config w)) in
        ss_result_percent st =
          percent_value (ss_result_score st) (ss_result_max_score st))
  /\ (forall config w,
        let st := session_state (snd (submit_quiz [] config w)) in
        fst (submit_quiz [] config w) = Ok tt
        /\ ss_result_max_score st = 0
        /\ ss_result_percent st = 0%Q)
  /\ (forall uid cid t m ps w,
        fst (save_course_score uid cid t m ps w) <> Raise ZeroDivisionError)
  /\ (forall uid cid t m ps w,
        idle w ->
        exists row,
          select_course_score uid cid
            (disk (snd (save_course_score uid cid t m ps w))) = Some row
          /\ CourseScores.score_percent row = percent_value t m).
Proof.
  split; [exact percent_of_value|]. split; [|split].
  - intros t m Hm. unfold percent_value.
    apply Z.ltb_lt in Hm. rewrite Hm. reflexivity.
  - reflexivity.
  - split; [|split; [|split; [|split]]].
    + intros qs config w.
      destruct (submit_quiz_outcome qs config w)
        as [(e & w' & Hloop & ->)|(t & m & c & w1 & w' & _ & -> & _)];
        [|discriminate].
      cbn [fst]. intros He.
      apply (score_loop_no_division_error config qs (0, 0, 0) w).
      rewrite Hloop. cbn [fst]. injection He as ->. reflexivity.
    + intros qs config w Hok st. subst st.
      destruct (submit_quiz_outcome qs config w)
        as [(e & w' & _ & H)|(t & m & c & w1 & w' & _ & H & Ht & Hm & Hp)];
        rewrite H in *; [discriminate|].
      cbn [snd]. rewrite Ht, Hm. exact Hp.
    + intros config w st. subst st.
      destruct (submit_quiz_outcome [] config w)
        as [(e & w' & Hloop & _)|(t & m & c & w1 & w' & Hloop & H & _ & Hm & Hp)];
        [discriminate|].
      injection Hloop as <- <- <- <-. rewrite H. cbn [fst snd].
      rewrite Hm, Hp. repeat split.
    + intros uid cid t m ps w.
      destruct (save_course_score_returns uid cid t m ps w) as (r & w' & ->).
      discriminate.
    + intros uid cid t m ps w Hidle.
      rewrite save_course_score_idle by exact Hidle. cbn [snd after_call disk].
      rewrite select_course_score_scores_of, scores_of_upserted.
      eexists. split; reflexivity.
Qed.

(** ** The timer *)

Lemma remaining_time_le limit start now1 now2 :
  now1 <= now2 ->
  (remaining_time limit now2 start <= remaining_time limit now1 start)%Q.
Proof.
  intros H. unfold remaining_time, elapsed_time, total_seconds.
  apply Qplus_le_r, Qopp_le_compat. unfold Qle. cbn [Qnum Qden]. nia.
Qed.

Lemma is_expired_iff limit now start :
  is_expired limit now start = true <->
  (remaining_time limit now start <= 0)%Q.
Proof.
  unfold is_expired, time_left. rewrite Bool.negb_involutive.
  apply Qle_bool_iff.
Qed.

(** C4.  The remaining time is the time limit minus the time elapsed
    since the stored start instant; it does not increase as the clock
    advances; the quiz is expired exactly when the remaining time is 0 or
    less, and once expired it stays expired at every later instant.
    [show_quiz_page] shows the seconds left while the quiz is not expired
    and never does once it is. *)
Theorem remaining_time_monotone limit start now1 now2 :
  start <= now1 ->
  now1 <= now2 ->
  (remaining_time limit now1 start ==
     inject_Z limit - ((now1 - start) # 1000000))%Q
  /\ (remaining_time limit now2 start <= remaining_time limit now1 start)%Q
  /\ (is_expired limit now1 start = true <->
      (remaining_time limit now1 start <= 0)%Q)
  /\ ((remaining_time limit now1 start <= 0)%Q ->
      is_expired limit now1 start = true /\ is_expired limit now2 start = true)
  /\ (forall w,
        clock w (reads w) = now1 ->
        ss_quiz_start_time (session_state w) = start ->
        ss_quiz_time_limit (session_state w) = limit ->
        (is_expired limit now1 start = false ->
         fst (show_quiz_page w) =
           Ok (TimeLeft (py_int (remaining_time limit now1 start))))
        /\ (is_expired limit now1 start = true ->
            forall seconds, fst (show_quiz_page w) <> Ok (TimeLeft seconds))).
Proof.
  intros Hstart Hnow. split; [reflexivity|].
  split; [apply remaining_time_le, Hnow|].
  split; [apply is_expired_iff|]. split.
  - intros H. split; [apply is_expired_iff, H|].
    apply is_expired_iff. eapply Qle_trans; [|exact H].
    apply remaining_time_le, Hnow.
  - intros w Hclock Hst Hlimit. unfold is_expired. split.
    + intros H. apply Bool.negb_false_iff in H.
      unfold show_quiz_page, bind, _load_config, datetime_now, get_session.
      cbn [session_state with_reads]. rewrite Hclock, Hst, Hlimit, H.
      reflexivity.
    + intros H seconds. apply Bool.negb_true_iff in H.
      unfold show_quiz_page, bind, _load_config, datetime_now, get_session.
      cbn [session_state with_reads]. rewrite Hclock, Hst, Hlimit, H.
      match goal with |- context [submit_quiz ?q ?c ?x] =>
        destruct (submit_quiz q c x) as [[[]|e] w'] end; discriminate.
Qed.

(** * The properties on the sample data *)

(** C2 fails on the sample data: the unknown username "mallory" gets the
    fixed message, and the known, active, unlocked username "bob" with a
    wrong secret gets no message at all, the evaluation ending in
    [AttributeError]; a caller tells the two apart. *)
Lemma unknown_and_known_username_answers_differ :
  select_user "mallory" (disk sample_world) = None
  /\ select_user "bob" (disk sample_world) = Some bob
  /\ Users.status bob = "active"
  /\ Users.locked_until bob = None
  /\ fst (authenticate_user "mallory" "wrong" "" "" sample_world) =
       Ok (AuthFailed msg_not_found)
  /\ fst (authenticate_user "bob" "wrong" "" "" sample_world) =
       Raise AttributeError
  /\ fst (authenticate_user "bob" "wrong" "" "" sample_world) <>
       fst (authenticate_user "mallory" "wrong" "" "" sample_world).
Proof.
  repeat split; try reflexivity. vm_compute. discriminate.
Qed.

(** The unknown "mallory" gets the fixed message; the suspended "carol"
    and the locked "erin" get messages that differ from it. *)
Lemma not_found_message_not_shared_sample :
  fst (authenticate_user "mallory" "x" "" "" sample_world) =
    Ok (AuthFailed msg_not_found)
  /\ msg_status "suspended" <> msg_not_found
  /\ msg_locked 148 <> msg_not_found.
Proof.
  destruct (not_found_message_not_shared "mallory" "x" "" "" sample_world
              eq_refl) as (Hunknown & _).
  destruct (not_found_message_not_shared "carol" "x" "" "" sample_world
              eq_refl) as (_ & Hcarol & _).
  destruct (not_found_message_not_shared "erin" "x" "" "" erin_world
              eq_refl) as (_ & Herin & _).
  split; [apply Hunknown; reflexivity|].
  split; [apply (Hcarol carol); reflexivity|].
  apply (Herin erin); reflexivity.
Defined.

(** C5 fails on the sample data.  The first submission shows 20 points.
    A second call right after it opens three connections more, as the
    first did.  After the retake button and two other answers, a further
    call for the same user and course shows 40 points. *)
Lemma resubmission_scores_again :
  let qs := [sample_question_1; sample_question_2] in
  let w1 := snd (submit_quiz qs sample_config sample_world) in
  let w2 := snd (start_quiz w1) in
  let w3 := snd (set_quiz_answer 2 ["B"]
                   (snd (set_quiz_answer 1 ["A"; "B"] w2))) in
  let w4 := snd (submit_quiz qs sample_config w3) in
  fst (submit_quiz qs sample_config sample_world) = Ok tt
  /\ ss_result_score (session_state w1) = 20
  /\ fst (submit_quiz qs sample_config w1) = Ok tt
  /\ next_conn w1 = 3%nat
  /\ next_conn (snd (submit_quiz qs sample_config w1)) = 6%nat
  /\ ss_user_id (session_state w3) = ss_user_id (session_state w1)
  /\ ss_current_course_id (session_state w3) =
       ss_current_course_id (session_state w1)
  /\ fst (submit_quiz qs sample_config w3) = Ok tt
  /\ ss_result_score (session_state w4) = 40
  /\ ss_result_correct (session_state w4) = 2.
Proof.
  repeat split; vm_compute; reflexivity.
Qed.

Lemma second_submit_scores_again_sample :
  let qs := [sample_question_1; sample_question_2] in
  let answers := <[1 := ["A"; "B"]]> (<[2 := ["B"]]> ∅) in
  let w1 := snd (submit_quiz qs sample_config sample_world) in
  let w1' :=
    with_session_state (with_quiz_answers answers (session_state w1)) w1 in
  let w2 := snd (submit_quiz qs sample_config w1') in
  ss_result_score (session_state w1) = 20
  /\ fst (submit_quiz qs sample_config w1') = Ok tt
  /\ ss_result_score (session_state w2) = 40
  /\ ss_result_correct (session_state w2) = 2
  /\ next_conn w2 = 6%nat.
Proof.
  intros qs answers w1 w1' w2.
  destruct (second_submit_scores_again qs sample_config (mkQuizSection None)
              sample_world answers)
    as (_ & H1 & Hok & H2 & Hc & Hn & _).
  - exact I.
  - reflexivity.
  - split; [etransitivity; [exact H1|vm_compute; reflexivity]|].
    split; [exact Hok|].
    split; [etransitivity; [exact H2|vm_compute; reflexivity]|].
    split; [etransitivity; [exact Hc|vm_compute; reflexivity]|].
    etransitivity; [exact Hn|vm_compute; reflexivity].
Defined.



(** A time limit of 300 seconds, started at instant 1000: 301 seconds
    later the quiz is expired and it stays so. *)
Lemma remaining_time_monotone_sample :
  (remaining_time 300 302001000 1000 <= remaining_time 300 301001000 1000)%Q
  /\ is_expired 300 301001000 1000 = true
  /\ is_expired 300 302001000 1000 = true.
Proof.
  destruct (remaining_time_monotone 300 1000 301001000 302001000)
    as (_ & Hle & _ & Hexp & _).
  - lia.
  - lia.
  - split; [exact Hle|]. apply Hexp. vm_compute. discriminate.
Defined.

(** The stored score of user 1 for course 3 is overwritten. *)
Lemma one_course_score_per_pair_sample :
  let w1 := snd (save_course_score 1 3 40 40 70 sample_world) in
  one_score_per_pair (disk w1)
  /\ idle w1
  /\ exists row,
       scores_of 1 3 (disk w1) = [row]
       /\ fst (get_user_course_score 1 3 w1) = Ok (Some row)
       /\ CourseScores.total_score row = 40
       /\ CourseScores.max_score row = 40
       /\ CourseScores.score_percent row = percent_value 40 40
       /\ CourseScores.passed row = reaches (percent_value 40 40) 70
       /\ CourseScores.completed_at row = 1000.
Proof.
  apply (proj1 (proj2 one_course_score_per_pair) 1 3 40 40 70 sample_world).
  - reflexivity.
  - intros uid cid. unfold scores_of.
    cbn [disk sample_world sample_database course_scores List.filter].
    destruct (Z.eqb (CourseScores.user_id sample_score) uid
              && Z.eqb (CourseScores.course_id sample_score) cid);
      cbn [length]; lia.
Defined.

(** One letter missing and one letter too many on the first sample
    question; the sample submission, in which question 1 holds its two
    correct letters in the other order and question 2 the wrong letter,
    shows 20 points and one correct answer out of two. *)
Lemma exact_set_scoring_sample :
  let qs := [sample_question_1; sample_question_2] in
  let st1 := session_state (snd (submit_quiz qs sample_config sample_world)) in
  is_correct ["A"] ["A"; "B"] = false
  /\ is_correct ["A"; "B"; "C"] ["A"; "B"] = false
  /\ points_earned 20 (<[1 := ["A"]]> ∅) sample_question_1 = 0
  /\ points_earned 20 (<[1 := ["B"; "A"]]> ∅) sample_question_1 = 20
  /\ ss_quiz_answers (session_state sample_world) !! 1 = Some ["B"; "A"]
  /\ ss_quiz_answers (session_state sample_world) !! 2 = Some ["A"]
  /\ fst (submit_quiz qs sample_config sample_world) = Ok tt
  /\ ss_result_score st1 = 20
  /\ ss_result_correct st1 = 1
  /\ ss_result_total st1 = 2.
Proof.
  intros qs st1.
  destruct exact_set_scoring
    as (_ & Hmiss & Hextra & Hzero & Hfull & Hsubmit).
  split; [|split; [|split; [|split; [|split; [|split]]]]].
  - apply (Hmiss ["A"] ["A"; "B"] "B").
    + right. left. reflexivity.
    + intros y. cbn. split.
      * intros [<-|[]]. split; [left; reflexivity|discriminate].
      * intros [[<-|[<-|[]]] Hne]; [left; reflexivity|congruence].
  - apply (Hextra ["A"; "B"; "C"] ["A"; "B"] "C").
    + cbn. intros [H|[H|[]]]; discriminate.
    + intros y. cbn. split.
      * intros [<-|[<-|[<-|[]]]]; auto.
      * intros [[<- | [<- | []]] | ->]; auto.
  - apply (Hzero 20 (<[1 := ["A"]]> ∅) sample_question_1 "B").
    left. split.
    + right. left. reflexivity.
    + vm_compute. intros [H|[]]. discriminate.
  - apply (Hfull 20 (<[1 := ["B"; "A"]]> ∅) sample_question_1).
    intros x. vm_compute. tauto.
  - vm_compute. reflexivity.
  - vm_compute. reflexivity.
  - destruct (Hsubmit qs sample_config (mkQuizSection None) sample_world)
      as (Hok & Hscore & Hcorrect & Htotal).
    + exact I.
    + reflexivity.
    + split; [exact Hok|].
      split; [etransitivity; [exact Hscore|vm_compute; reflexivity]|].
      split; [etransitivity; [exact Hcorrect|vm_compute; reflexivity]|].
      etransitivity; [exact Htotal|reflexivity].
Defined.

(** 20 points out of 40 are 50 percent; no question gives 0 percent. *)
Lemma percent_without_division_error_sample :
  percent_value 20 40 = (inject_Z 20 / inject_Z 40 * 100)%Q
  /\ (exists row,
        select_course_score 1 3
          (disk (snd (save_course_score 1 3 20 40 70 sample_world))) = Some row
        /\ CourseScores.score_percent row = percent_value 20 40)
  /\ ss_result_percent
       (session_state (snd (submit_quiz [] sample_config sample_world))) = 0%Q.
Proof.
  destruct percent_without_division_error
    as (_ & Hpos & _ & _ & _ & Hempty & _ & Hsave).
  split; [|split].
  - apply Hpos. lia.
  - apply Hsave. reflexivity.
  - apply (Hempty sample_config sample_world).
Defined.

(** * Further properties of [authenticate_user] *)

(** X1.  An active credential whose lock is not in force gets no answer:
    whatever the secret, the evaluation ends in [AttributeError] at the
    call of [hash_password].  The failed count is not raised, no lock
    and no last login are stored, the ledger gets no record; the only
    change is the clearing of an expired lock, which was committed
    before.  The database is left idle. *)
Theorem password_check_raises u p ip ua w row :
  idle w ->
  select_user u (disk w) = Some row ->
  Users.status row = "active" ->
  lock_in_force row (clock w (reads w)) = false ->
  let w1 := snd (authenticate_user u p ip ua w) in
  fst (authenticate_user u p ip ua w) = Raise AttributeError
  /\ disk w1 = lock_cleared row (disk w)
  /\ (Users.locked_until row = None -> disk w1 = disk w)
  /\ login_logs (disk w1) = login_logs (disk w)
  /\ idle w1.
Proof.
  intros Hidle Hsel Hst Hlock w1. subst w1.
  rewrite (authenticate_password_check u p ip ua w row) by assumption.
  cbn [fst snd after_call disk].
  split; [reflexivity|]. split; [reflexivity|].
  split; [|split; [apply login_logs_lock_cleared|reflexivity]].
  intros Hlu. unfold lock_cleared. rewrite Hlu. reflexivity.
Qed.

(** X3.  An unknown username: the answer is the fixed message, the [users]
    table is untouched, and the record written to the ledger has a null
    [user_id], the username that was tried and the reason "not found". *)
Theorem unknown_username_refused u p ip ua w :
  idle w ->
  select_user u (disk w) = None ->
  let w1 := snd (authenticate_user u p ip ua w) in
  fst (authenticate_user u p ip ua w) = Ok (AuthFailed msg_not_found)
  /\ users (disk w1) = users (disk w)
  /\ (exists log_id,
        login_logs (disk w1) =
          (login_logs (disk w)
           ++ [LoginLogs.mk log_id None u "failed" ip ua (Some log_not_found)])%list)
  /\ idle w1.
Proof.
  intros Hidle Hsel w1. subst w1.
  rewrite (authenticate_not_found u p ip ua w) by assumption.
  cbn [fst snd after_call disk]. repeat split. eexists. reflexivity.
Qed.

(** X4.  A suspended or disabled account is refused at the status check,
    whether the secret is right or wrong: the answer names the status,
    the failed count and the lock stay as they are, and the ledger gets
    one record with the user's id. *)
Theorem inactive_account_refused u p ip ua w row :
  idle w ->
  select_user u (disk w) = Some row ->
  Users.status row <> "active" ->
  let w1 := snd (authenticate_user u p ip ua w) in
  fst (authenticate_user u p ip ua w) =
    Ok (AuthFailed (msg_status (Users.status row)))
  /\ users (disk w1) = users (disk w)
  /\ (exists log_id,
        login_logs (disk w1) =
          (login_logs (disk w)
           ++ [LoginLogs.mk log_id (Some (Users.user_id row)) u "failed" ip ua
                            (Some (log_status (Users.status row)))])%list)
  /\ idle w1.
Proof.
  intros Hidle Hsel Hst w1. subst w1.
  rewrite (authenticate_disabled u p ip ua w row) by assumption.
  cbn [fst snd after_call disk]. repeat split. eexists. reflexivity.
Qed.

(** X21.  While the lock of an active credential is in force the
    evaluation is refused at the lock check, whether the secret is right
    or wrong: the answer gives the whole minutes that remain, the [users]
    table, hence the failed count, stays as it is, and the ledger gets
    one record with the user's id. *)
Theorem locked_credential_refused u p ip ua w row lu :
  idle w ->
  select_user u (disk w) = Some row ->
  Users.status row = "active" ->
  Users.locked_until row = Some lu ->
  clock w (reads w) < lu ->
  let remaining_minutes := Z.quot (lu - clock w (S (reads w))) 60000000 in
  let w1 := snd (authenticate_user u p ip ua w) in
  fst (authenticate_user u p ip ua w) =
    Ok (AuthFailed (msg_locked remaining_minutes))
  /\ users (disk w1) = users (disk w)
  /\ (exists log_id,
        login_logs (disk w1) =
          (login_logs (disk w)
           ++ [LoginLogs.mk log_id (Some (Users.user_id row)) u "failed" ip ua
                            (Some (log_locked remaining_minutes))])%list)
  /\ idle w1.
Proof.
  intros Hidle Hsel Hst Hlu Hlt remaining_minutes w1. subst w1.
  rewrite (authenticate_locked u p ip ua w row lu) by assumption.
  cbn [fst snd after_call disk]. repeat split. eexists. reflexivity.
Qed.

(** What an evaluation on an idle database may change: one function [f],
    which keeps the identity columns, applied to the rows with the key of
    the credential; at most one record more in the ledger; nothing in
    the other two tables.  It returns an answer or ends in
    [AttributeError]. *)
Lemma authenticate_user_footprint u p ip ua w :
  idle w ->
  let w1 := snd (authenticate_user u p ip ua w) in
  ((exists answer, fst (authenticate_user u p ip ua w) = Ok answer)
   \/ fst (authenticate_user u p ip ua w) = Raise AttributeError)
  /\ idle w1
  /\ (exists uid f,
        (forall r, same_identity r (f r))
        /\ users (disk w1) =
             List.map (fun r => if Z.eqb (Users.user_id r) uid then f r else r)
                      (users (disk w))
        /\ (forall row, select_user u (disk w) = Some row ->
                        uid = Users.user_id row))
  /\ (exists new,
        login_logs (disk w1) = (login_logs (disk w) ++ new)%list
        /\ (length new <= 1)%nat)
  /\ quiz_results (disk w1) = quiz_results (disk w)
  /\ course_scores (disk w1) = course_scores (disk w).
Proof.
  intros Hidle w1. subst w1.
  assert (Hsame : forall (us : list Users.row) uid,
            us = List.map (fun r => if Z.eqb (Users.user_id r) uid then r else r) us).
  { intros us uid. rewrite <- (List.map_id us) at 1. apply List.map_ext.
    intros r. destruct (Z.eqb (Users.user_id r) uid); reflexivity. }
  assert (Hq : forall row d, quiz_results (lock_cleared row d) = quiz_results d).
  { intros row d. unfold lock_cleared. destruct (Users.locked_until row); reflexivity. }
  assert (Hc : forall row d, course_scores (lock_cleared row d) = course_scores d).
  { intros row d. unfold lock_cleared. destruct (Users.locked_until row); reflexivity. }
  destruct (select_user u (disk w)) as [row|] eqn:Hsel.
  - destruct (String.eqb_spec (Users.status row) "active") as [Hst|Hst].
    + destruct (lock_in_force row (clock w (reads w))) eqn:Hlock.
      * unfold lock_in_force in Hlock.
        destruct (Users.locked_until row) as [lu|] eqn:Hlu; [|discriminate].
        apply Z.ltb_lt in Hlock.
        rewrite (authenticate_locked u p ip ua w row lu) by assumption.
        cbn [fst snd after_call disk].
        split; [left; eexists; reflexivity|]. split; [reflexivity|].
        split.
        { exists (Users.user_id row), (fun r => r). split; [repeat split|].
          split; [apply Hsame|congruence]. }
        split; [|split; reflexivity].
        eexists [_]. split; [reflexivity|cbn; lia].
      * rewrite (authenticate_password_check u p ip ua w row) by assumption.
        cbn [fst snd after_call disk].
        split; [right; reflexivity|]. split; [reflexivity|].
        split.
        { exists (Users.user_id row),
            (fun r => match Users.locked_until row with
                      | Some _ => set_lock_state 0 None r
                      | None => r
                      end).
          split; [intros r; destruct (Users.locked_until row); repeat split|].
          split; [apply users_lock_cleared|congruence]. }
        split; [|split].
        -- exists []. rewrite List.app_nil_r.
           split; [apply login_logs_lock_cleared|cbn; lia].
        -- apply Hq.
        -- apply Hc.
    + rewrite (authenticate_disabled u p ip ua w row) by assumption.
      cbn [fst snd after_call disk].
      split; [left; eexists; reflexivity|]. split; [reflexivity|].
      split.
      { exists (Users.user_id row), (fun r => r). split; [repeat split|].
        split; [apply Hsame|congruence]. }
      split; [|split; reflexivity].
      eexists [_]. split; [reflexivity|cbn; lia].
  - rewrite (authenticate_not_found u p ip ua w) by assumption.
    cbn [fst snd after_call disk].
    split; [left; eexists; reflexivity|]. split; [reflexivity|].
    split.
    { exists 0, (fun r => r). split; [repeat split|].
      split; [apply Hsame|discriminate]. }
    split; [|split; reflexivity].
    eexists [_]. split; [reflexivity|cbn; lia].
Qed.

Lemma Forall2_map_same {A} (R : A -> A -> Prop) (g : A -> A) (l : list A) :
  (forall x, R x (g x)) -> Forall2 R l (List.map g l).
Proof. intros H. induction l; cbn; constructor; auto. Qed.

(** X5.  An evaluation on an idle database returns an answer or ends in
    [AttributeError], in no other exception, and leaves the database
    idle.  It keeps every row of [users], with its key, username,
    password hash, e-mail, name, role and status; it leaves the rows of
    every other user exactly as they were; and it writes nothing to
    [quiz_results] and [course_scores]. *)
Theorem evaluation_touches_one_credential u p ip ua w :
  idle w ->
  let w1 := snd (authenticate_user u p ip ua w) in
  ((exists answer, fst (authenticate_user u p ip ua w) = Ok answer)
   \/ fst (authenticate_user u p ip ua w) = Raise AttributeError)
  /\ idle w1
  /\ Forall2 same_identity (users (disk w)) (users (disk w1))
  /\ (forall row,
        select_user u (disk w) = Some row ->
        Forall2 (fun r r' => Users.user_id r <> Users.user_id row -> r' = r)
                (users (disk w)) (users (disk w1)))
  /\ (select_user u (disk w) = None -> users (disk w1) = users (disk w))
  /\ quiz_results (disk w1) = quiz_results (disk w)
  /\ course_scores (disk w1) = course_scores (disk w).
Proof.
  intros Hidle w1.
  destruct (authenticate_user_footprint u p ip ua w Hidle)
    as (Hans & Hidle1 & (uid & f & Hf & Hus & Huid) & _ & Hq & Hc).
  fold w1 in Hidle1, Hus, Hq, Hc.
  split; [exact Hans|]. split; [exact Hidle1|].
  split; [|split; [|split; [|split; assumption]]].
  - rewrite Hus. apply Forall2_map_same. intros r.
    destruct (Z.eqb (Users.user_id r) uid); [apply Hf|repeat split].
  - intros row Hsel. rewrite Hus, (Huid row Hsel). apply Forall2_map_same.
    intros r Hne. apply Z.eqb_neq in Hne. rewrite Hne. reflexivity.
  - intros Hnone. subst w1.
    rewrite (authenticate_not_found u p ip ua w) by assumption.
    reflexivity.
Qed.

(** X6.  The ledger only grows: an evaluation keeps every record of
    [login_logs] in place and appends at most one. *)
Theorem ledger_only_grows u p ip ua w :
  idle w ->
  exists new,
    login_logs (disk (snd (authenticate_user u p ip ua w))) =
      (login_logs (disk w) ++ new)%list
    /\ (length new <= 1)%nat.
Proof.
  intros Hidle.
  destruct (authenticate_user_footprint u p ip ua w Hidle)
    as (_ & _ & _ & Hlog & _).
  exact Hlog.
Qed.

(** X7.  While another connection holds the write lock, the evaluation of
    an active credential whose lock has expired cannot clear the lock:
    the UPDATE ends in [OperationalError], which the evaluation does not
    catch, and the database file and the lock are as before. *)
Theorem storage_failure_propagates u p ip ua w row lu :
  locked_by_other w ->
  select_user u (disk w) = Some row ->
  Users.status row = "active" ->
  Users.locked_until row = Some lu ->
  lu <= clock w (reads w) ->
  let w1 := snd (authenticate_user u p ip ua w) in
  fst (authenticate_user u p ip ua w) = Raise OperationalError
  /\ disk w1 = disk w
  /\ writer w1 = writer w.
Proof.
  unfold locked_by_other.
  destruct w as [d wr nc clk rd cfg qs ss]; cbn.
  intros (c & d0 & -> & Hc) Hsel Hst Hlu Hexp.
  assert (Hne : Nat.eqb nc c = false) by (apply Nat.eqb_neq; lia).
  apply Z.ltb_ge in Hexp.
  unfold authenticate_user. run_prog.
  rewrite Hne. cbn. rewrite Hsel, Hst. cbn. rewrite Hlu. cbn.
  rewrite Hexp. cbn. rewrite Hne. cbn. rewrite Hne. repeat split.
Qed.

(** * User administration *)

Lemma unlock_user_idle uid w :
  idle w ->
  unlock_user uid w =
    (Ok true,
     after_call (users_where_id uid (set_lock_state 0 None) (disk w)) 1 0 w).
Proof.
  unfold idle. destruct w as [d wr nc clk rd cfg qs ss]; cbn. intros ->.
  unfold unlock_user. run_prog. conns. reflexivity.
Qed.

Lemma update_user_status_idle uid status w :
  idle w ->
  In status ["active"; "suspended"; "disabled"] ->
  update_user_status uid status w =
    (Ok true, after_call (users_where_id uid (set_status status) (disk w)) 1 0 w).
Proof.
  unfold idle. destruct w as [d wr nc clk rd cfg qs ss]; cbn. intros -> Hin.
  unfold update_user_status, sql_set_status.
  assert (Hex : existsb (String.eqb status) ["active"; "suspended"; "disabled"]
                = true).
  { apply List.existsb_exists. exists status. split; [exact Hin|].
    apply String.eqb_refl. }
  rewrite Hex. run_prog. conns. reflexivity.
Qed.

(** An UPDATE by a key that no row has changes nothing. *)
Lemma users_where_id_absent uid f d :
  (forall r, In r (users d) -> Users.user_id r <> uid) ->
  users_where_id uid f d = d.
Proof.
  intros H. unfold users_where_id, set_users. destruct d as [us su ls sl qs sq cs sc].
  cbn in *. f_equal. rewrite <- (List.map_id us) at 2.
  apply List.map_ext_in. intros r Hr.
  destruct (Z.eqb (Users.user_id r) uid) eqn:E; [|reflexivity].
  apply Z.eqb_eq in E. destruct (H r Hr E).
Qed.

(** X8.  [update_user_status] refuses every status but "active", "suspended"
    and "disabled": it returns [False] and touches nothing, not even a
    connection. *)
Theorem unknown_status_refused uid status w :
  status <> "active" -> status <> "suspended" -> status <> "disabled" ->
  update_user_status uid status w = (Ok false, w).
Proof.
  intros H1 H2 H3. unfold update_user_status.
  apply String.eqb_neq in H1, H2, H3. cbn [existsb].
  rewrite H1, H2, H3. reflexivity.
Qed.

(** X9.  [update_user_status] and [unlock_user] do not check that the user
    exists: for a [user_id] that no row has they return [True] and leave
    the database as it was. *)
Theorem administration_of_missing_user uid status w :
  idle w ->
  In status ["active"; "suspended"; "disabled"] ->
  (forall r, In r (users (disk w)) -> Users.user_id r <> uid) ->
  fst (update_user_status uid status w) = Ok true
  /\ disk (snd (update_user_status uid status w)) = disk w
  /\ fst (unlock_user uid w) = Ok true
  /\ disk (snd (unlock_user uid w)) = disk w.
Proof.
  intros Hidle Hin Habs.
  rewrite update_user_status_idle, unlock_user_idle by assumption.
  cbn [fst snd after_call disk].
  rewrite !users_where_id_absent by assumption. repeat split.
Qed.

(** X10.  [unlock_user] lifts a lock that is in force.  Before it, the
    evaluation is refused with the locked message; after it, the
    credential has no failed attempt and no lock, and an evaluation at
    the same reading of the clock is no longer refused at the lock check:
    it goes on to the password check, where it ends in [AttributeError]. *)
Theorem unlock_then_authenticate u p ip ua w row lu :
  idle w ->
  select_user u (disk w) = Some row ->
  Users.status row = "active" ->
  Users.locked_until row = Some lu ->
  clock w (reads w) < lu ->
  let w1 := snd (unlock_user (Users.user_id row) w) in
  fst (authenticate_user u p ip ua w) =
    Ok (AuthFailed
          (msg_locked (Z.quot (lu - clock w (S (reads w))) 60000000)))
  /\ fst (unlock_user (Users.user_id row) w) = Ok true
  /\ select_user u (disk w1) = Some (set_lock_state 0 None row)
  /\ clock w1 (reads w1) = clock w (reads w)
  /\ fst (authenticate_user u p ip ua w1) = Raise AttributeError.
Proof.
  intros Hidle Hsel Hst Hlu Hlt w1. subst w1.
  rewrite (authenticate_locked u p ip ua w row lu) by assumption.
  rewrite unlock_user_idle by assumption. cbn [fst snd].
  assert (Hsel1 : select_user u
                    (disk (after_call
                             (users_where_id (Users.user_id row)
                                (set_lock_state 0 None) (disk w)) 1 0 w)) =
                  Some (set_lock_state 0 None row)).
  { apply select_user_where_id; auto. }
  split; [reflexivity|]. split; [reflexivity|]. split; [exact Hsel1|].
  split; [reflexivity|].
  rewrite (authenticate_password_check u p ip ua _
             (set_lock_state 0 None row)); try assumption; reflexivity.
Qed.

(** X11.  After [update_user_status] has suspended or disabled a user, the
    right secret is refused with the message that names the status, and
    the evaluation leaves the [users] table as the update left it;
    setting the status back to "active" restores the row of a user who
    was active. *)
Theorem suspended_user_is_refused u p ip ua w row status :
  idle w ->
  select_user u (disk w) = Some row ->
  Users.status row = "active" ->
  status = "suspended" \/ status = "disabled" ->
  let w1 := snd (update_user_status (Users.user_id row) status w) in
  let w2 := snd (authenticate_user u p ip ua w1) in
  let w3 := snd (update_user_status (Users.user_id row) "active" w2) in
  fst (update_user_status (Users.user_id row) status w) = Ok true
  /\ select_user u (disk w1) = Some (set_status status row)
  /\ fst (authenticate_user u p ip ua w1) =
       Ok (AuthFailed (msg_status status))
  /\ users (disk w2) = users (disk w1)
  /\ select_user u (disk w3) = Some row.
Proof.
  intros Hidle Hsel Hst Hstatus w1 w2 w3.
  assert (Hin : In status ["active"; "suspended"; "disabled"]).
  { destruct Hstatus as [->| ->]; cbn; auto. }
  assert (Hne : status <> "active").
  { destruct Hstatus as [->| ->]; discriminate. }
  assert (H1 := update_user_status_idle (Users.user_id row) status w Hidle Hin).
  assert (Hsel1 : select_user u (disk w1) = Some (set_status status row)).
  { subst w1. rewrite H1. apply select_user_where_id; auto. }
  assert (Hidle1 : idle w1) by (subst w1; rewrite H1; reflexivity).
  assert (H2 := authenticate_disabled u p ip ua w1
                  (set_status status row) Hidle1 Hsel1 Hne).
  assert (Hidle2 : idle w2) by (subst w2; rewrite H2; reflexivity).
  assert (Hsel2 : select_user u (disk w2) = Some (set_status status row)).
  { subst w2. rewrite H2. exact Hsel1. }
  assert (H3 := update_user_status_idle (Users.user_id row) "active" w2 Hidle2
                  ltac:(cbn; auto)).
  split; [rewrite H1; reflexivity|]. split; [exact Hsel1|].
  split; [rewrite H2; reflexivity|].
  split; [subst w2; rewrite H2; reflexivity|].
  subst w3. rewrite H3. cbn [snd after_call disk].
  rewrite (select_user_where_id u (disk w2) (set_status status row)
             (Users.user_id row) (set_status "active")); auto.
  f_equal. destruct row. cbn in *. subst. reflexivity.
Qed.

(** * Registration, user information and the keys of [users] *)

Lemma get_user_info_idle uid w :
  idle w ->
  get_user_info uid w =
    (Ok (option_map user_info_of (select_user_by_id uid (disk w))),
     after_call (disk w) 1 0 w).
Proof.
  unfold idle. destruct w as [d wr nc clk rd cfg qs ss]; cbn. intros ->.
  unfold get_user_info. run_prog. reflexivity.
Qed.

(** The row a key selects after an UPDATE by key that keeps the keys. *)
Lemma select_user_by_id_where_id uid uid' f d :
  (forall r, Users.user_id (f r) = Users.user_id r) ->
  select_user_by_id uid' (users_where_id uid f d) =
    option_map (fun r => if Z.eqb (Users.user_id r) uid then f r else r)
               (select_user_by_id uid' d).
Proof.
  intros Hf. unfold select_user_by_id, users_where_id. cbn [users set_users].
  induction (users d) as [|r rs IH]; cbn [List.map List.find]; [reflexivity|].
  assert (Hid : Users.user_id (if Z.eqb (Users.user_id r) uid then f r else r)
                = Users.user_id r).
  { destruct (Z.eqb (Users.user_id r) uid); [apply Hf|reflexivity]. }
  rewrite Hid. destruct (Z.eqb (Users.user_id r) uid'); [reflexivity|exact IH].
Qed.

(** X12.  [add_user] registers nobody: for every username, free or taken,
    it ends in [AttributeError] at the call of [hash_password], which
    comes before its INSERT, and the [except sqlite3.IntegrityError]
    clause lets the exception through.  The database and the lock are as
    before; a username that was unknown stays unknown. *)
Theorem add_user_never_registers u pw e fn r w :
  connections_fresh w ->
  let w1 := snd (add_user u pw e fn r w) in
  fst (add_user u pw e fn r w) = Raise AttributeError
  /\ disk w1 = disk w
  /\ writer w1 = writer w
  /\ select_user u (disk w1) = select_user u (disk w).
Proof.
  intros Hfresh w1. subst w1. rewrite add_user_run by exact Hfresh.
  repeat split.
Qed.

(** X13.  [get_user_info] after [update_user_status]: for a user that
    exists it reports the new status and every other column as before,
    and for every other key it reports what it reported before. *)
Theorem user_info_after_status_update uid status w row :
  idle w ->
  In status ["active"; "suspended"; "disabled"] ->
  select_user_by_id uid (disk w) = Some row ->
  let w1 := snd (update_user_status uid status w) in
  fst (get_user_info uid w) = Ok (Some (user_info_of row))
  /\ fst (update_user_status uid status w) = Ok true
  /\ fst (get_user_info uid w1) =
       Ok (Some (mkUserInfo (Users.user_id row) (Users.username row)
                            (Users.email row) (Users.full_name row)
                            (Users.role row) status (Users.last_login row)))
  /\ (forall uid', uid' <> uid ->
        fst (get_user_info uid' w1) = fst (get_user_info uid' w)).
Proof.
  intros Hidle Hin Hsel w1.
  assert (H1 := update_user_status_idle uid status w Hidle Hin).
  assert (Hidle1 : idle w1) by (subst w1; rewrite H1; reflexivity).
  assert (Hrow : Users.user_id row = uid).
  { unfold select_user_by_id in Hsel. apply List.find_some in Hsel.
    apply Z.eqb_eq, Hsel. }
  split; [rewrite get_user_info_idle, Hsel by assumption; reflexivity|].
  split; [rewrite H1; reflexivity|].
  split.
  - rewrite get_user_info_idle by exact Hidle1. subst w1. rewrite H1.
    cbn [fst snd after_call disk].
    rewrite select_user_by_id_where_id by reflexivity.
    rewrite Hsel. cbn [option_map]. subst uid. rewrite Z.eqb_refl. reflexivity.
  - intros uid' Hne.
    rewrite !get_user_info_idle by assumption. subst w1. rewrite H1.
    cbn [fst snd after_call disk].
    rewrite select_user_by_id_where_id by reflexivity.
    destruct (select_user_by_id uid' (disk w)) as [r'|] eqn:Hsel';
      [|reflexivity].
    cbn [option_map].
    assert (Hr' : Users.user_id r' = uid').
    { unfold select_user_by_id in Hsel'. apply List.find_some in Hsel'.
      apply Z.eqb_eq, Hsel'. }
    rewrite Hr', (proj2 (Z.eqb_neq uid' uid) Hne). reflexivity.
Qed.

(** X14.  The keys of [users] stay distinct: no two rows share a [user_id] or a
    [username] in the empty database, and [add_user], [authenticate_user],
    [unlock_user] and [update_user_status] keep it so. *)
Theorem users_keys_stay_unique :
  users_keys_unique empty_database
  /\ (forall u pw e fn r w,
        idle w -> users_keys_unique (disk w) ->
        users_keys_unique (disk (snd (add_user u pw e fn r w))))
  /\ (forall u p ip ua w,
        idle w -> users_keys_unique (disk w) ->
        users_keys_unique
          (disk (snd (authenticate_user u p ip ua w))))
  /\ (forall uid w,
        idle w -> users_keys_unique (disk w) ->
        users_keys_unique (disk (snd (unlock_user uid w))))
  /\ (forall uid status w,
        idle w -> users_keys_unique (disk w) ->
        users_keys_unique (disk (snd (update_user_status uid status w)))).
Proof.
  assert (Hmap : forall uid f (us : list Users.row),
            (forall r, Users.user_id (f r) = Users.user_id r
                       /\ Users.username (f r) = Users.username r) ->
            List.map Users.user_id
              (List.map (fun r => if Z.eqb (Users.user_id r) uid then f r else r) us)
            = List.map Users.user_id us
            /\ List.map Users.username
                 (List.map (fun r => if Z.eqb (Users.user_id r) uid then f r else r) us)
               = List.map Users.username us).
  { intros uid f us Hf. rewrite !List.map_map.
    split; apply List.map_ext; intros r;
      destruct (Z.eqb (Users.user_id r) uid); try reflexivity; apply Hf. }
  split; [split; constructor|]. split; [|split; [|split]].
  - intros u pw e fn r w Hidle Hkeys.
    rewrite add_user_run by (apply idle_connections_fresh, Hidle).
    exact Hkeys.
  - intros u p ip ua w Hidle [Hid Hname].
    destruct (authenticate_user_footprint u p ip ua w Hidle)
      as (_ & _ & (uid & f & Hf & Hus & _) & _).
    unfold users_keys_unique. rewrite Hus.
    destruct (Hmap uid f (users (disk w))) as [E1 E2].
    { intros r. destruct (Hf r) as (H1 & H2 & _). split; assumption. }
    rewrite E1, E2. split; assumption.
  - intros uid w Hidle [Hid Hname].
    rewrite unlock_user_idle by assumption.
    unfold users_keys_unique, users_where_id.
    cbn [snd after_call disk users set_users].
    destruct (Hmap uid (set_lock_state 0 None) (users (disk w))) as [E1 E2];
      [split; reflexivity|].
    rewrite E1, E2. split; assumption.
  - intros uid status w Hidle [Hid Hname].
    destruct (existsb (String.eqb status) ["active"; "suspended"; "disabled"])
      eqn:Hex.
    + rewrite update_user_status_idle; [|assumption|].
      * unfold users_keys_unique, users_where_id.
        cbn [snd after_call disk users set_users].
        destruct (Hmap uid (set_status status) (users (disk w))) as [E1 E2];
          [split; reflexivity|].
        rewrite E1, E2. split; assumption.
      * apply List.existsb_exists in Hex. destruct Hex as (x & Hin & Hx).
        apply String.eqb_eq in Hx. subst x. exact Hin.
    + unfold update_user_status. rewrite Hex. cbn. split; assumption.
Qed.

(** * Further properties of the results *)

(** X17.  While another connection holds the write lock, [submit_quiz] still
    runs to its end and shows the result page with the score, but every
    save has failed silently: the database is as it was, with no row for
    the answers and no course score. *)
Theorem submit_quiz_shows_unsaved_result qs config section w :
  locked_by_other w ->
  cfg_quiz config = Some section ->
  let st := session_state w in
  let points := from_option id 20 (points_per_question section) in
  let w1 := snd (submit_quiz qs config w) in
  fst (submit_quiz qs config w) = Ok tt
  /\ disk w1 = disk w
  /\ writer w1 = writer w
  /\ ss_current_page (session_state w1) = "result"
  /\ ss_result_score (session_state w1) = points * count_correct st qs
  /\ ss_result_max_score (session_state w1) = points * Z.of_nat (length qs).
Proof.
  intros Hlocked Hcfg st points w1. subst w1.
  rewrite (submit_quiz_run config section qs w Hcfg
             (locked_by_other_connections_fresh w Hlocked)).
  repeat split.
Qed.

(** X22.  [submit_quiz] stores nothing, also on an idle database.  What
    it passes as [user_id] is what the session holds, [None] or the
    dictionary [authenticate_user] returned: [save_quiz_result] returns
    [False] and [save_course_score] the empty dictionary, and after
    [submit_quiz] the database and the lock are as before, while the
    result page is shown. *)
Theorem submit_quiz_stores_nothing qs config section w :
  connections_fresh w ->
  cfg_quiz config = Some section ->
  let w1 := snd (submit_quiz qs config w) in
  (forall st cid qid sel c e,
     fst (save_quiz_result (session_user_id st) cid qid sel c e w) = Ok false)
  /\ (forall st cid t m ps,
        fst (save_course_score (session_user_id st) cid t m ps w) = Ok None)
  /\ fst (submit_quiz qs config w) = Ok tt
  /\ disk w1 = disk w
  /\ writer w1 = writer w
  /\ ss_current_page (session_state w1) = "result"
  /\ ss_result_total (session_state w1) = Z.of_nat (length qs).
Proof.
  intros Hfresh Hcfg w1. subst w1.
  split; [intros; rewrite save_quiz_result_session by exact Hfresh; reflexivity|].
  split; [intros; rewrite save_course_score_session by exact Hfresh; reflexivity|].
  rewrite (submit_quiz_run config section qs w Hcfg Hfresh).
  repeat split.
Qed.

(** * Starting a quiz and letting it run out *)





(** * The ledger writer and the registration at login *)

(** X19.  [_log_login_attempt] never raises.  On an idle database it returns
    [True] and has appended exactly the record it was given; while
    another connection holds the write lock it returns [False] and the
    database and the lock are as before. *)
Theorem log_login_attempt_never_raises uid u s ip ua e w :
  (exists b w', _log_login_attempt uid u s ip ua e w = (Ok b, w'))
  /\ (idle w ->
      fst (_log_login_attempt uid u s ip ua e w) = Ok true
      /\ exists log_id,
           login_logs (disk (snd (_log_login_attempt uid u s ip ua e w))) =
             (login_logs (disk w) ++ [LoginLogs.mk log_id uid u s ip ua e])%list)
  /\ (locked_by_other w ->
      fst (_log_login_attempt uid u s ip ua e w) = Ok false
      /\ disk (snd (_log_login_attempt uid u s ip ua e w)) = disk w
      /\ writer (snd (_log_login_attempt uid u s ip ua e w)) = writer w).
Proof.
  split; [|split].
  - unfold _log_login_attempt, try_except.
    match goal with |- context [match ?m w with _ => _ end] =>
      destruct (m w) as [[b|x] w'] end; eexists _, _; reflexivity.
  - intros Hidle. rewrite log_attempt_idle by exact Hidle.
    split; [reflexivity|]. eexists. reflexivity.
  - intros (c & d & Hw & Hc).
    rewrite (log_attempt_busy uid u s ip ua e w c d Hw) by lia.
    repeat split.
Qed.


(** * The further properties on the sample data *)

Lemma password_check_raises_sample :
  let w1 := snd (authenticate_user "bob" "secret" "" "" sample_world) in
  fst (authenticate_user "bob" "secret" "" "" sample_world) =
    Raise AttributeError
  /\ disk w1 = disk sample_world
  /\ login_logs (disk w1) = []
  /\ idle w1.
Proof.
  intros w1.
  destruct (password_check_raises "bob" "secret" "" "" sample_world bob)
    as (Hraise & _ & Hdisk & Hlogs & Hidle).
  - reflexivity.
  - reflexivity.
  - reflexivity.
  - reflexivity.
  - split; [exact Hraise|]. split; [apply Hdisk; reflexivity|].
    split; [exact Hlogs|exact Hidle].
Defined.

Lemma unknown_username_refused_sample :
  let w1 := snd (authenticate_user "mallory" "x" "10.0.0.1" "curl"
                                   sample_world) in
  fst (authenticate_user "mallory" "x" "10.0.0.1" "curl" sample_world)
    = Ok (AuthFailed msg_not_found)
  /\ users (disk w1) = users (disk sample_world)
  /\ (exists log_id,
        login_logs (disk w1) =
          ([] ++ [LoginLogs.mk log_id None "mallory" "failed" "10.0.0.1" "curl"
                               (Some log_not_found)])%list)
  /\ idle w1.
Proof.
  apply (unknown_username_refused "mallory" "x" "10.0.0.1" "curl"
           sample_world).
  - reflexivity.
  - reflexivity.
Defined.

Lemma inactive_account_refused_sample :
  let w1 := snd (authenticate_user "carol" "secret" "" "" sample_world) in
  fst (authenticate_user "carol" "secret" "" "" sample_world) =
    Ok (AuthFailed (msg_status "suspended"))
  /\ users (disk w1) = users (disk sample_world)
  /\ (exists log_id,
        login_logs (disk w1) =
          ([] ++ [LoginLogs.mk log_id (Some 2) "carol" "failed" "" ""
                               (Some (log_status "suspended"))])%list)
  /\ idle w1.
Proof.
  apply (inactive_account_refused "carol" "secret" "" "" sample_world
           carol).
  - reflexivity.
  - reflexivity.
  - vm_compute. discriminate.
Defined.

(** "erin" is locked until instant 9000000000; at the second reading of
    the clock 148 whole minutes remain. *)
Lemma locked_credential_refused_sample :
  let w1 := snd (authenticate_user "erin" "secret" "" "" erin_world) in
  fst (authenticate_user "erin" "secret" "" "" erin_world) =
    Ok (AuthFailed (msg_locked 148))
  /\ users (disk w1) = users (disk erin_world)
  /\ (exists log_id,
        login_logs (disk w1) =
          ([] ++ [LoginLogs.mk log_id (Some 1) "erin" "failed" "" ""
                               (Some (log_locked 148))])%list)
  /\ idle w1.
Proof.
  apply (locked_credential_refused "erin" "secret" "" "" erin_world erin
           9000000000).
  - reflexivity.
  - reflexivity.
  - reflexivity.
  - reflexivity.
  - reflexivity.
Defined.

Lemma evaluation_touches_one_credential_sample :
  let w1 := snd (authenticate_user "dave" "wrong" "" "" sample_world) in
  Forall2 same_identity (users (disk sample_world)) (users (disk w1))
  /\ Forall2 (fun r r' => Users.user_id r <> 3 -> r' = r)
             (users (disk sample_world)) (users (disk w1)).
Proof.
  intros w1.
  destruct (evaluation_touches_one_credential "dave" "wrong" "" ""
              sample_world) as (_ & _ & Hall & Hothers & _).
  - reflexivity.
  - split; [exact Hall|]. apply (Hothers dave). reflexivity.
Defined.

Lemma ledger_only_grows_sample :
  exists new,
    login_logs (disk (snd (authenticate_user "carol" "x" "" ""
                                             sample_world))) =
      (login_logs (disk sample_world) ++ new)%list
    /\ (length new <= 1)%nat.
Proof.
  apply (ledger_only_grows "carol" "x" "" "" sample_world).
  reflexivity.
Defined.

Lemma storage_failure_propagates_sample :
  let w1 := snd (authenticate_user "dave" "secret" "" "" busy_world) in
  fst (authenticate_user "dave" "secret" "" "" busy_world) =
    Raise OperationalError
  /\ disk w1 = disk busy_world
  /\ writer w1 = writer busy_world.
Proof.
  apply (storage_failure_propagates "dave" "secret" "" "" busy_world dave 10).
  - exists 0%nat, sample_database. split; [reflexivity|]. cbn. lia.
  - reflexivity.
  - reflexivity.
  - reflexivity.
  - vm_compute. discriminate.
Defined.

Lemma unknown_status_refused_sample :
  update_user_status 1 "banned" sample_world = (Ok false, sample_world).
Proof.
  apply (unknown_status_refused 1 "banned" sample_world); discriminate.
Defined.

Lemma administration_of_missing_user_sample :
  fst (update_user_status 99 "disabled" sample_world) = Ok true
  /\ disk (snd (update_user_status 99 "disabled" sample_world)) = disk sample_world
  /\ fst (unlock_user 99 sample_world) = Ok true
  /\ disk (snd (unlock_user 99 sample_world)) = disk sample_world.
Proof.
  apply (administration_of_missing_user 99 "disabled" sample_world).
  - reflexivity.
  - right. right. left. reflexivity.
  - cbn. intros r [<-|[<-|[<-|[<-|[]]]]]; discriminate.
Defined.

Lemma unlock_then_authenticate_sample :
  let w1 := snd (unlock_user 1 erin_world) in
  fst (authenticate_user "erin" "secret" "" "" erin_world) =
    Ok (AuthFailed (msg_locked 148))
  /\ fst (unlock_user 1 erin_world) = Ok true
  /\ select_user "erin" (disk w1) = Some (set_lock_state 0 None erin)
  /\ clock w1 (reads w1) = clock erin_world (reads erin_world)
  /\ fst (authenticate_user "erin" "secret" "" "" w1) = Raise AttributeError.
Proof.
  apply (unlock_then_authenticate "erin" "secret" "" "" erin_world erin
           9000000000).
  - reflexivity.
  - reflexivity.
  - reflexivity.
  - reflexivity.
  - reflexivity.
Defined.

Lemma suspended_user_is_refused_sample :
  let w1 := snd (update_user_status 4 "suspended" sample_world) in
  let w2 := snd (authenticate_user "bob" "secret" "" "" w1) in
  let w3 := snd (update_user_status 4 "active" w2) in
  fst (update_user_status 4 "suspended" sample_world) = Ok true
  /\ select_user "bob" (disk w1) = Some (set_status "suspended" bob)
  /\ fst (authenticate_user "bob" "secret" "" "" w1) =
       Ok (AuthFailed (msg_status "suspended"))
  /\ users (disk w2) = users (disk w1)
  /\ select_user "bob" (disk w3) = Some bob.
Proof.
  apply (suspended_user_is_refused "bob" "secret" "" "" sample_world
           bob "suspended").
  - reflexivity.
  - reflexivity.
  - reflexivity.
  - left. reflexivity.
Defined.

Lemma add_user_never_registers_sample :
  let w1 := snd (add_user "frank" "pw" "f@example.com" "Frank" "student"
                          sample_world) in
  fst (add_user "frank" "pw" "f@example.com" "Frank" "student" sample_world) =
    Raise AttributeError
  /\ disk w1 = disk sample_world
  /\ writer w1 = writer sample_world
  /\ select_user "frank" (disk w1) = None.
Proof.
  apply (add_user_never_registers "frank" "pw" "f@example.com" "Frank"
           "student" sample_world).
  exact I.
Defined.

Lemma user_info_after_status_update_sample :
  let w1 := snd (update_user_status 4 "disabled" sample_world) in
  fst (get_user_info 4 sample_world) =
    Ok (Some (mkUserInfo 4 "bob" "" "" "student" "active" None))
  /\ fst (update_user_status 4 "disabled" sample_world) = Ok true
  /\ fst (get_user_info 4 w1) =
       Ok (Some (mkUserInfo 4 "bob" "" "" "student" "disabled" None))
  /\ fst (get_user_info 1 w1) = fst (get_user_info 1 sample_world).
Proof.
  intros w1.
  destruct (user_info_after_status_update 4 "disabled" sample_world bob)
    as (H0 & H1 & H2 & H3).
  - reflexivity.
  - right. right. left. reflexivity.
  - reflexivity.
  - split; [exact H0|]. split; [exact H1|]. split; [exact H2|].
    apply H3. discriminate.
Defined.

Lemma users_keys_stay_unique_sample :
  users_keys_unique
    (disk (snd (authenticate_user "dave" "secret" "" "" sample_world))).
Proof.
  apply (proj1 (proj2 (proj2 users_keys_stay_unique))).
  - reflexivity.
  - split; vm_compute;
      repeat (constructor; [cbn; intuition discriminate|]);
      constructor.
Defined.

Lemma submit_quiz_shows_unsaved_result_sample :
  let qs := [sample_question_1; sample_question_2] in
  let w1 := snd (submit_quiz qs sample_config busy_world) in
  fst (submit_quiz qs sample_config busy_world) = Ok tt
  /\ disk w1 = disk busy_world
  /\ writer w1 = writer busy_world
  /\ ss_current_page (session_state w1) = "result"
  /\ ss_result_score (session_state w1) = 20
  /\ ss_result_max_score (session_state w1) = 40.
Proof.
  apply (submit_quiz_shows_unsaved_result [sample_question_1; sample_question_2]
           sample_config (mkQuizSection None) busy_world).
  - exists 0%nat, sample_database. split; [reflexivity|]. cbn. lia.
  - reflexivity.
Defined.

Lemma submit_quiz_stores_nothing_sample :
  let qs := [sample_question_1; sample_question_2] in
  let w1 := snd (submit_quiz qs sample_config sample_world) in
  fst (submit_quiz qs sample_config sample_world) = Ok tt
  /\ disk w1 = disk sample_world
  /\ writer w1 = writer sample_world
  /\ ss_current_page (session_state w1) = "result"
  /\ ss_result_total (session_state w1) = 2.
Proof.
  intros qs w1.
  destruct (submit_quiz_stores_nothing qs sample_config (mkQuizSection None)
              sample_world) as (_ & _ & H).
  - exact I.
  - reflexivity.
  - exact H.
Defined.


Lemma log_login_attempt_never_raises_sample :
  fst (_log_login_attempt (Some 1) "alice" "failed" "" "" None busy_world) = Ok false
  /\ disk (snd (_log_login_attempt (Some 1) "alice" "failed" "" "" None busy_world))
     = disk busy_world
  /\ writer (snd (_log_login_attempt (Some 1) "alice" "failed" "" "" None busy_world))
     = writer busy_world.
Proof.
  apply (proj2 (proj2 (log_login_attempt_never_raises (Some 1) "alice" "failed"
                         "" "" None busy_world))).
  exists 0%nat, sample_database. split; [reflexivity|]. cbn. lia.
Defined.

